(** * WisBlock-API, [src/lora.cpp]: the LoRa point-to-point link

    A shallow embedding of [init_lora], the six radio callbacks and
    [send_lora_packet].  The globals the functions read and write are the
    fields of one [State] record; the functions are programs of a small
    state-and-failure monad over it.  Every call that leaves the file (the
    [Radio] table of the SX126x driver, [digitalWrite], [xSemaphoreGive],
    the wake-up timer, [lora_rak4630_init]) is appended, in program order,
    to the [calls] log of the state: what the link "did" is read off that
    log.  [API_LOG] lines are logging only and are left out. *)

From Stdlib Require Import ZArith List Bool Lia.
From Stdlib Require Import Init.Byte.
Import ListNotations.

Local Open Scope Z_scope.

(** ** Fixed-width integers

    Values are [Z]; the conversion C++ applies when an integer is passed to
    a parameter of a narrower type is written out. *)

Definition to_uint8 (z : Z) : Z := z mod 256.
Definition to_uint16 (z : Z) : Z := z mod 65536.
Definition to_int8 (z : Z) : Z := (z + 128) mod 256 - 128.
Definition to_int16 (z : Z) : Z := (z + 32768) mod 65536 - 32768.

(** The value an unsigned cell of [bits] bits holds after [z] is assigned
    to it. *)
Definition to_unsigned (bits z : Z) : Z := z mod 2 ^ bits.

(** The null pointer. *)
Definition NULL : Z := 0.

(** ** Names the file takes from its headers

    Only the names [lora.cpp] mentions are declared.  They are symbolic: the
    code passes them on and never computes with them. *)

Inductive RadioModems_t : Type := MODEM_LORA.
Inductive CadSymbols_t : Type := LORA_CAD_08_SYMBOL.
Inductive CadExitModes_t : Type := LORA_CAD_ONLY.
Inductive Pin : Type := LED_BUILTIN.
Inductive Level : Type := LOW | HIGH.

(** The functions whose address the file stores or hands out. *)
Inductive Callback : Type :=
| fn_on_tx_done
| fn_on_rx_done
| fn_on_tx_timeout
| fn_on_rx_timeout
| fn_on_rx_crc_error
| fn_on_cad_done
| fn_periodic_wakeup.

(** [RadioEvents_t]: the six slots [init_lora] fills; [None] is a slot
    still null. *)
Record RadioEvents_t : Type := mkRadioEvents {
  TxDone : option Callback;
  RxDone : option Callback;
  TxTimeout : option Callback;
  RxTimeout : option Callback;
  RxError : option Callback;
  CadDone : option Callback
}.

(** The fields of [g_lorawan_settings] that [lora.cpp] reads. *)
Record s_lorawan_settings : Type := mkSettings {
  p2p_frequency : Z;
  p2p_tx_power : Z;
  p2p_bandwidth : Z;
  p2p_sf : Z;
  p2p_cr : Z;
  p2p_preamble_len : Z;
  p2p_symbol_timeout : Z;
  send_repeat_time : Z
}.

(** ** Calls that leave the file

    One constructor per external function the file calls, with the
    arguments as the source writes them.  [Radio_Send] records the content
    of the buffer it is pointed at, at the time of the call.
    [lora_rak4630_init] records the value the bring-up returned. *)
Inductive Call : Type :=
| lora_rak4630_init (result : Z)
| Radio_Init (events : RadioEvents_t)
| Radio_Sleep
| Radio_SetChannel (freq : Z)
| Radio_SetTxConfig (modem : RadioModems_t)
    (power fdev bandwidth datarate coderate preambleLen : Z)
    (fixLen crcOn : bool) (freqHopOn hopPeriod : Z)
    (iqInverted : bool) (timeout : Z)
| Radio_SetRxConfig (modem : RadioModems_t)
    (bandwidth datarate coderate bandwidthAfc preambleLen symbTimeout : Z)
    (fixLen : bool) (payloadLen : Z) (crcOn : bool)
    (freqHopOn hopPeriod : Z) (iqInverted rxContinuous : bool)
| Radio_Rx (timeout : Z)
| Radio_Send (buffer : list byte) (size : Z)
| Radio_SetCadParams (cadSymbolNum : CadSymbols_t) (cadDetPeak cadDetMin : Z)
    (cadExitMode : CadExitModes_t) (cadTimeout : Z)
| Radio_StartCad
| digitalWrite (pin : Pin) (level : Level)
| xSemaphoreGive (sem : Z)
| g_task_wakeup_timer_begin (ms : Z) (cb : Callback)
| g_task_wakeup_timer_start.

(** ** The globals *)

Record State : Type := mkState {
  g_lorawan_initialized : bool;
  g_lorawan_settings : s_lorawan_settings;
  RadioEvents : RadioEvents_t;
  g_rx_fin_result : bool;
  g_task_event_type : Z;
  g_task_sem : Z;
  g_last_rssi : Z;
  g_last_snr : Z;
  g_rx_lora_data : list byte;
  g_rx_data_len : Z;
  g_tx_lora_data : list byte;
  g_tx_data_len : Z;
  calls : list Call
}.

Definition set_g_lorawan_initialized (v : bool) (st : State) : State :=
  mkState v (g_lorawan_settings st) (RadioEvents st) (g_rx_fin_result st)
    (g_task_event_type st) (g_task_sem st) (g_last_rssi st) (g_last_snr st)
    (g_rx_lora_data st) (g_rx_data_len st) (g_tx_lora_data st)
    (g_tx_data_len st) (calls st).

Definition set_g_lorawan_settings (v : s_lorawan_settings) (st : State) : State :=
  mkState (g_lorawan_initialized st) v (RadioEvents st) (g_rx_fin_result st)
    (g_task_event_type st) (g_task_sem st) (g_last_rssi st) (g_last_snr st)
    (g_rx_lora_data st) (g_rx_data_len st) (g_tx_lora_data st)
    (g_tx_data_len st) (calls st).

Definition set_RadioEvents (v : RadioEvents_t) (st : State) : State :=
  mkState (g_lorawan_initialized st) (g_lorawan_settings st) v
    (g_rx_fin_result st) (g_task_event_type st) (g_task_sem st)
    (g_last_rssi st) (g_last_snr st) (g_rx_lora_data st) (g_rx_data_len st)
    (g_tx_lora_data st) (g_tx_data_len st) (calls st).

Definition set_g_rx_fin_result (v : bool) (st : State) : State :=
  mkState (g_lorawan_initialized st) (g_lorawan_settings st) (RadioEvents st)
    v (g_task_event_type st) (g_task_sem st) (g_last_rssi st) (g_last_snr st)
    (g_rx_lora_data st) (g_rx_data_len st) (g_tx_lora_data st)
    (g_tx_data_len st) (calls st).

Definition set_g_task_event_type (v : Z) (st : State) : State :=
  mkState (g_lorawan_initialized st) (g_lorawan_settings st) (RadioEvents st)
    (g_rx_fin_result st) v (g_task_sem st) (g_last_rssi st) (g_last_snr st)
    (g_rx_lora_data st) (g_rx_data_len st) (g_tx_lora_data st)
    (g_tx_data_len st) (calls st).

Definition set_g_task_sem (v : Z) (st : State) : State :=
  mkState (g_lorawan_initialized st) (g_lorawan_settings st) (RadioEvents st)
    (g_rx_fin_result st) (g_task_event_type st) v (g_last_rssi st)
    (g_last_snr st) (g_rx_lora_data st) (g_rx_data_len st)
    (g_tx_lora_data st) (g_tx_data_len st) (calls st).

Definition set_g_last_rssi (v : Z) (st : State) : State :=
  mkState (g_lorawan_initialized st) (g_lorawan_settings st) (RadioEvents st)
    (g_rx_fin_result st) (g_task_event_type st) (g_task_sem st) v
    (g_last_snr st) (g_rx_lora_data st) (g_rx_data_len st)
    (g_tx_lora_data st) (g_tx_data_len st) (calls st).

Definition set_g_last_snr (v : Z) (st : State) : State :=
  mkState (g_lorawan_initialized st) (g_lorawan_settings st) (RadioEvents st)
    (g_rx_fin_result st) (g_task_event_type st) (g_task_sem st)
    (g_last_rssi st) v (g_rx_lora_data st) (g_rx_data_len st)
    (g_tx_lora_data st) (g_tx_data_len st) (calls st).

Definition set_g_rx_lora_data (v : list byte) (st : State) : State :=
  mkState (g_lorawan_initialized st) (g_lorawan_settings st) (RadioEvents st)
    (g_rx_fin_result st) (g_task_event_type st) (g_task_sem st)
    (g_last_rssi st) (g_last_snr st) v (g_rx_data_len st)
    (g_tx_lora_data st) (g_tx_data_len st) (calls st).

Definition set_g_rx_data_len (v : Z) (st : State) : State :=
  mkState (g_lorawan_initialized st) (g_lorawan_settings st) (RadioEvents st)
    (g_rx_fin_result st) (g_task_event_type st) (g_task_sem st)
    (g_last_rssi st) (g_last_snr st) (g_rx_lora_data st) v
    (g_tx_lora_data st) (g_tx_data_len st) (calls st).

Definition set_g_tx_lora_data (v : list byte) (st : State) : State :=
  mkState (g_lorawan_initialized st) (g_lorawan_settings st) (RadioEvents st)
    (g_rx_fin_result st) (g_task_event_type st) (g_task_sem st)
    (g_last_rssi st) (g_last_snr st) (g_rx_lora_data st) (g_rx_data_len st)
    v (g_tx_data_len st) (calls st).

Definition set_g_tx_data_len (v : Z) (st : State) : State :=
  mkState (g_lorawan_initialized st) (g_lorawan_settings st) (RadioEvents st)
    (g_rx_fin_result st) (g_task_event_type st) (g_task_sem st)
    (g_last_rssi st) (g_last_snr st) (g_rx_lora_data st) (g_rx_data_len st)
    (g_tx_lora_data st) v (calls st).

Definition set_calls (v : list Call) (st : State) : State :=
  mkState (g_lorawan_initialized st) (g_lorawan_settings st) (RadioEvents st)
    (g_rx_fin_result st) (g_task_event_type st) (g_task_sem st)
    (g_last_rssi st) (g_last_snr st) (g_rx_lora_data st) (g_rx_data_len st)
    (g_tx_lora_data st) (g_tx_data_len st) v.

(** ** The monad of the embedding

    A program takes the globals and either returns a value with the new
    globals, or has no defined behaviour ([None]): the one such case in the
    file is a [memcpy] that runs past the end of either buffer. *)

Definition M (A : Type) : Type := State -> option (A * State).

Definition ret {A : Type} (a : A) : M A := fun st => Some (a, st).

Definition bind {A B : Type} (m : M A) (k : A -> M B) : M B :=
  fun st => match m st with
            | Some (a, st') => k a st'
            | None => None
            end.

Definition read {A : Type} (f : State -> A) : M A := fun st => Some (f st, st).

Definition write (f : State -> State) : M unit := fun st => Some (tt, f st).

Definition lift {A : Type} (o : option A) : M A :=
  fun st => match o with
            | Some a => Some (a, st)
            | None => None
            end.

Definition call (c : Call) : M unit :=
  write (fun st => set_calls (calls st ++ [c]) st).

Declare Scope lora_scope.
Delimit Scope lora_scope with lora.
Notation "x <- m ;; k" := (bind m (fun x => k))
  (at level 61, m at next level, right associativity) : lora_scope.
Notation "m ;; k" := (bind m (fun _ => k))
  (at level 61, right associativity) : lora_scope.
Local Open Scope lora_scope.

(** [memcpy dst src n]: the content of [dst] after copying the first [n]
    bytes of [src] over its first [n] bytes.  [src] and [dst] are the whole
    objects the two pointers point into; reading or writing past either end
    is undefined. *)
Definition memcpy (dst src : list byte) (n : Z) : option (list byte) :=
  let k := Z.to_nat n in
  if ((k <=? length src) && (k <=? length dst))%nat
  then Some (firstn k src ++ skipn k dst)
  else None.

(** ** The functions of [lora.cpp] *)

Section Lora.

(** The two event masks come from [WisBlock-API.h], which is not part of
    the sources at hand: they are parameters of the development. *)
Variables (LORA_DATA LORA_TX_FIN : Z).

(** So does the declaration of [g_rx_data_len].  [on_rx_done] assigns its
    16-bit [size] to it, and what the cell then holds depends on its
    width: the width in bits of this unsigned cell is a parameter too.
    The other cells the file assigns to ([g_tx_data_len], [g_last_rssi],
    [g_last_snr]) receive values that already went through a parameter of
    8 or 16 bits and are taken to hold them. *)
Variable RX_DATA_LEN_BITS : Z.

(** Lines 52 to 80 of [init_lora]: what runs once the bring-up block is
    behind. *)
Definition init_lora_configure : M Z :=
  call Radio_Sleep ;;
  s <- read g_lorawan_settings ;;
  call (Radio_SetChannel (p2p_frequency s)) ;;
  call (Radio_SetTxConfig MODEM_LORA (p2p_tx_power s) 0 (p2p_bandwidth s)
          (p2p_sf s) (p2p_cr s) (p2p_preamble_len s) false
          true 0 0 false 5000) ;;
  call (Radio_SetRxConfig MODEM_LORA (p2p_bandwidth s) (p2p_sf s)
          (p2p_cr s) 0 (p2p_preamble_len s) (p2p_symbol_timeout s) false
          0 true 0 0 false true) ;;
  (if negb (send_repeat_time s =? 0)
   then call (g_task_wakeup_timer_begin (send_repeat_time s) fn_periodic_wakeup) ;;
        call g_task_wakeup_timer_start
   else ret tt) ;;
  call (Radio_Rx 0) ;;
  call (digitalWrite LED_BUILTIN LOW) ;;
  write (set_g_lorawan_initialized true) ;;
  ret 0.

(** [init_lora].  [hw] is what [lora_rak4630_init] returns should the
    function call it. *)
Definition init_lora (hw : Z) : M Z :=
  initialized <- read g_lorawan_initialized ;;
  if negb initialized
  then
    call (lora_rak4630_init hw) ;;
    if negb (hw =? 0)
    then ret (-1)
    else
      write (set_RadioEvents
               (mkRadioEvents (Some fn_on_tx_done) (Some fn_on_rx_done)
                  (Some fn_on_tx_timeout) (Some fn_on_rx_timeout)
                  (Some fn_on_rx_crc_error) (Some fn_on_cad_done))) ;;
      ev <- read RadioEvents ;;
      call (Radio_Init ev) ;;
      init_lora_configure
  else init_lora_configure.

Definition on_tx_done : M unit :=
  write (set_g_rx_fin_result true) ;;
  flags <- read g_task_event_type ;;
  write (set_g_task_event_type (Z.lor flags LORA_TX_FIN)) ;;
  sem <- read g_task_sem ;;
  (if negb (sem =? NULL) then call (xSemaphoreGive sem) else ret tt) ;;
  call (Radio_Rx 0).

(** [on_rx_done].  The three scalars arrive through parameters of 16, 16
    and 8 bits; the length goes into [g_rx_data_len] through the width of
    that cell. *)
Definition on_rx_done (payload : list byte) (size rssi snr : Z) : M unit :=
  let size := to_uint16 size in
  let rssi := to_int16 rssi in
  let snr := to_int8 snr in
  write (set_g_last_rssi rssi) ;;
  write (set_g_last_snr snr) ;;
  buf <- read g_rx_lora_data ;;
  buf' <- lift (memcpy buf payload size) ;;
  write (set_g_rx_lora_data buf') ;;
  write (set_g_rx_data_len (to_unsigned RX_DATA_LEN_BITS size)) ;;
  flags <- read g_task_event_type ;;
  write (set_g_task_event_type (Z.lor flags LORA_DATA)) ;;
  sem <- read g_task_sem ;;
  (if negb (sem =? NULL) then call (xSemaphoreGive sem) else ret tt) ;;
  call (Radio_Rx 0).

Definition on_tx_timeout : M unit :=
  write (set_g_rx_fin_result false) ;;
  flags <- read g_task_event_type ;;
  write (set_g_task_event_type (Z.lor flags LORA_TX_FIN)) ;;
  sem <- read g_task_sem ;;
  (if negb (sem =? NULL) then call (xSemaphoreGive sem) else ret tt) ;;
  call (Radio_Rx 0).

Definition on_rx_timeout : M unit := call (Radio_Rx 0).

Definition on_rx_crc_error : M unit := call (Radio_Rx 0).

Definition on_cad_done (cadResult : bool) : M unit :=
  if cadResult
  then call (Radio_Rx 0)
  else
    buf <- read g_tx_lora_data ;;
    len <- read g_tx_data_len ;;
    call (Radio_Send buf len).

(** [send_lora_packet].  [size] is the integer the caller writes at the
    call; the parameter is a [uint8_t], so the body sees it reduced to
    eight bits. *)
Definition send_lora_packet (data : list byte) (size : Z) : M bool :=
  let size := to_uint8 size in
  if 256 <? size
  then ret false
  else
    write (set_g_tx_data_len size) ;;
    buf <- read g_tx_lora_data ;;
    buf' <- lift (memcpy buf data size) ;;
    write (set_g_tx_lora_data buf') ;;
    call Radio_Sleep ;;
    s <- read g_lorawan_settings ;;
    call (Radio_SetCadParams LORA_CAD_08_SYMBOL (p2p_sf s + 13) 10
            LORA_CAD_ONLY 0) ;;
    call (digitalWrite LED_BUILTIN HIGH) ;;
    call Radio_StartCad ;;
    ret true.

End Lora.

(** ** Reading the log of calls *)

(** The link states of the specification.  [lora.cpp] keeps no variable
    for them: the state of the link is the mode the radio was last put in.
    [Radio.Rx] starts continuous receive, [Radio.StartCad] a channel
    activity detection, [Radio.Send] a transmission; before any of these
    the link is [Uninitialized].  [Radio.Sleep] and the configuration calls
    only occur inside [init_lora] and [send_lora_packet], which end with
    one of the three, and are passed over. *)
Inductive LinkState : Type :=
| Uninitialized
| Listening
| SendRequested
| Sensing
| Transmitting.

Definition link_step (s : LinkState) (c : Call) : LinkState :=
  match c with
  | Radio_Rx _ => Listening
  | Radio_StartCad => Sensing
  | Radio_Send _ _ => Transmitting
  | _ => s
  end.

Definition link_after (l : list Call) : LinkState :=
  fold_left link_step l Uninitialized.

Definition LinkState_of (st : State) : LinkState := link_after (calls st).

(** The level [LED_BUILTIN] was last driven to; [None] while no
    [digitalWrite] happened. *)
Definition indicator_step (l : option Level) (c : Call) : option Level :=
  match c with
  | digitalWrite LED_BUILTIN lv => Some lv
  | _ => l
  end.

Definition indicator_after (l : list Call) : option Level :=
  fold_left indicator_step l None.

Definition indicator (st : State) : option Level := indicator_after (calls st).

(** The calls on the [Radio] table. *)
Definition is_radio_call (c : Call) : bool :=
  match c with
  | Radio_Init _ | Radio_Sleep | Radio_SetChannel _
  | Radio_SetTxConfig _ _ _ _ _ _ _ _ _ _ _ _ _
  | Radio_SetRxConfig _ _ _ _ _ _ _ _ _ _ _ _ _ _
  | Radio_Rx _ | Radio_Send _ _ | Radio_SetCadParams _ _ _ _ _
  | Radio_StartCad => true
  | _ => false
  end.

Definition is_wake (c : Call) : bool :=
  match c with
  | xSemaphoreGive _ => true
  | _ => false
  end.

Definition is_bring_up (c : Call) : bool :=
  match c with
  | lora_rak4630_init _ => true
  | _ => false
  end.

Definition is_registration (c : Call) : bool :=
  match c with
  | Radio_Init _ => true
  | _ => false
  end.

(** How many calls of a kind a log holds. *)
Definition count (p : Call -> bool) (l : list Call) : nat :=
  length (filter p l).

(** What the radio has been told so far: the last channel, transmit
    configuration and receive configuration it was given, and the mode it
    was last put in. *)
Record RadioSetup : Type := mkRadioSetup {
  setup_channel : option Call;
  setup_tx : option Call;
  setup_rx : option Call;
  setup_mode : LinkState
}.

Definition setup_step (r : RadioSetup) (c : Call) : RadioSetup :=
  match c with
  | Radio_SetChannel _ =>
      mkRadioSetup (Some c) (setup_tx r) (setup_rx r) (setup_mode r)
  | Radio_SetTxConfig _ _ _ _ _ _ _ _ _ _ _ _ _ =>
      mkRadioSetup (setup_channel r) (Some c) (setup_rx r) (setup_mode r)
  | Radio_SetRxConfig _ _ _ _ _ _ _ _ _ _ _ _ _ _ =>
      mkRadioSetup (setup_channel r) (setup_tx r) (Some c) (setup_mode r)
  | _ =>
      mkRadioSetup (setup_channel r) (setup_tx r) (setup_rx r)
        (link_step (setup_mode r) c)
  end.

Definition radio_setup (st : State) : RadioSetup :=
  fold_left setup_step (calls st) (mkRadioSetup None None None Uninitialized).

(** The calls one pass of lines 52 to 75 makes under settings [s]. *)
Definition configuration_calls (s : s_lorawan_settings) : list Call :=
  [ Radio_Sleep;
    Radio_SetChannel (p2p_frequency s);
    Radio_SetTxConfig MODEM_LORA (p2p_tx_power s) 0 (p2p_bandwidth s)
      (p2p_sf s) (p2p_cr s) (p2p_preamble_len s) false true 0 0 false 5000;
    Radio_SetRxConfig MODEM_LORA (p2p_bandwidth s) (p2p_sf s) (p2p_cr s) 0
      (p2p_preamble_len s) (p2p_symbol_timeout s) false 0 true 0 0 false true ]
  ++ (if send_repeat_time s =? 0 then []
      else [ g_task_wakeup_timer_begin (send_repeat_time s) fn_periodic_wakeup;
             g_task_wakeup_timer_start ])
  ++ [ Radio_Rx 0; digitalWrite LED_BUILTIN LOW ].

(** The six handlers as [init_lora] registers them. *)
Definition registered_handlers : RadioEvents_t :=
  mkRadioEvents (Some fn_on_tx_done) (Some fn_on_rx_done)
    (Some fn_on_tx_timeout) (Some fn_on_rx_timeout)
    (Some fn_on_rx_crc_error) (Some fn_on_cad_done).

(** ** The link as a transition system *)

(** Modelled from the spec: the definitions of the globals live in files
    that are not part of the sources at hand.  The specification gives both
    frame buffers a capacity of 256 bytes; the link starts uninitialised,
    with nothing registered, no event pending and no semaphore created. *)
Definition BUFFER_CAPACITY : nat := 256%nat.

Definition boot (s : s_lorawan_settings) : State :=
  mkState false s (mkRadioEvents None None None None None None)
    false 0 NULL 0 0
    (repeat x00 BUFFER_CAPACITY) 0
    (repeat x00 BUFFER_CAPACITY) 0
    [].

Section Transitions.

Variables (LORA_DATA LORA_TX_FIN : Z).
Variable RX_DATA_LEN_BITS : Z.

(** One step of the system: a call of one of the two entry points, a
    callback delivered by the radio driver, or the rest of the firmware
    writing the globals it owns (new settings, the semaphore once it is
    created, event bits cleared after reading).  Nothing is assumed about
    when the driver delivers a callback. *)
Inductive step : State -> State -> Prop :=
| step_init_lora hw st r st' :
    init_lora hw st = Some (r, st') -> step st st'
| step_send_lora_packet data size st r st' :
    send_lora_packet data size st = Some (r, st') -> step st st'
| step_on_tx_done st st' :
    on_tx_done LORA_TX_FIN st = Some (tt, st') -> step st st'
| step_on_rx_done payload size rssi snr st st' :
    on_rx_done LORA_DATA RX_DATA_LEN_BITS payload size rssi snr st =
      Some (tt, st') ->
    step st st'
| step_on_tx_timeout st st' :
    on_tx_timeout LORA_TX_FIN st = Some (tt, st') -> step st st'
| step_on_rx_timeout st st' :
    on_rx_timeout st = Some (tt, st') -> step st st'
| step_on_rx_crc_error st st' :
    on_rx_crc_error st = Some (tt, st') -> step st st'
| step_on_cad_done cadResult st st' :
    on_cad_done cadResult st = Some (tt, st') -> step st st'
| step_firmware s sem flags st :
    step st (set_g_lorawan_settings s
               (set_g_task_sem sem (set_g_task_event_type flags st))).

Inductive reachable : State -> Prop :=
| reachable_boot s : reachable (boot s)
| reachable_step st st' : reachable st -> step st st' -> reachable st'.

End Transitions.

(** Running a program for its final globals; a program without defined
    behaviour leaves them as they were. *)
Definition exec {A : Type} (m : M A) (st : State) : State :=
  match m st with
  | Some (_, st') => st'
  | None => st
  end.

(** The settings of the end-to-end scenario of the specification:
    915 MHz, spreading factor 7, coding rate 1, bandwidth 125, preamble 8,
    no repeat timer; the remaining fields are set to 0. *)
Definition scenario_settings : s_lorawan_settings :=
  mkSettings 915000000 0 125 7 1 8 0 0.

(** The link after a successful [init_lora], and after a send was
    accepted on top of it. *)
Definition listening_state : State :=
  exec (init_lora 0) (boot scenario_settings).

Definition sensing_state : State :=
  exec (send_lora_packet [x01; x02; x03] 3) listening_state.

(** The same link once the detection found the channel clear. *)
Definition transmitting_state : State :=
  exec (on_cad_done false) sensing_state.

(** The listening link with the task semaphore created (any non-null
    handle). *)
Definition listening_state_with_semaphore : State :=
  set_g_task_sem 536879104 listening_state.

(** What a log must satisfy for the radio to be handed only frames that
    fit: every [Radio.Send] was given a buffer of full capacity and a
    length of at most 255. *)
Definition send_fits (c : Call) : Prop :=
  match c with
  | Radio_Send buffer size =>
      length buffer = BUFFER_CAPACITY /\ 0 <= size <= 255
  | _ => True
  end.

(** Every [xSemaphoreGive] was handed a handle that is not null. *)
Definition give_is_valid (c : Call) : Prop :=
  match c with
  | xSemaphoreGive sem => sem <> NULL
  | _ => True
  end.




(** The calls on the wake-up timer. *)
Definition is_timer_call (c : Call) : bool :=
  match c with
  | g_task_wakeup_timer_begin _ _ | g_task_wakeup_timer_start => true
  | _ => false
  end.

(** The [RadioEvents] table before [init_lora] has filled it. *)
Definition no_handlers : RadioEvents_t :=
  mkRadioEvents None None None None None None.

(** * Properties *)

(** ** Auxiliary facts *)

(** Closed goals about concrete states: split the conjunctions, then
    evaluate both sides. *)
Ltac conjuncts :=
  repeat match goal with |- _ /\ _ => split end.

Ltac by_evaluation := conjuncts; vm_compute; reflexivity.

Lemma to_uint8_range (z : Z) : 0 <= to_uint8 z < 256.
Proof. unfold to_uint8. apply Z.mod_pos_bound. lia. Qed.

Lemma to_uint8_small (z : Z) : 0 <= z < 256 -> to_uint8 z = z.
Proof. intros H. unfold to_uint8. apply Z.mod_small. exact H. Qed.

Lemma to_uint16_small (z : Z) : 0 <= z < 65536 -> to_uint16 z = z.
Proof. intros H. unfold to_uint16. apply Z.mod_small. exact H. Qed.

Lemma to_int16_small (z : Z) : -32768 <= z < 32768 -> to_int16 z = z.
Proof. intros H. unfold to_int16. rewrite Z.mod_small; lia. Qed.

Lemma to_int8_small (z : Z) : -128 <= z < 128 -> to_int8 z = z.
Proof. intros H. unfold to_int8. rewrite Z.mod_small; lia. Qed.

Lemma to_unsigned_small (bits z : Z) :
  0 <= z < 2 ^ bits -> to_unsigned bits z = z.
Proof. intros H. unfold to_unsigned. apply Z.mod_small. exact H. Qed.

(** A non-negative value never grows when it is stored. *)
Lemma to_unsigned_le (bits z : Z) : 0 <= z -> 0 <= to_unsigned bits z <= z.
Proof.
  intros H. unfold to_unsigned.
  destruct (Z.eq_dec (2 ^ bits) 0) as [E|E].
  - rewrite E, Z.mod_0_r. lia.
  - assert (0 <= 2 ^ bits) by (apply Z.pow_nonneg; lia).
    split; [apply Z.mod_pos_bound; lia | apply Z.mod_le; lia].
Qed.

Lemma memcpy_defined (dst src : list byte) (n : Z) :
  0 <= n <= Z.of_nat (length src) ->
  n <= Z.of_nat (length dst) ->
  memcpy dst src n = Some (firstn (Z.to_nat n) src ++ skipn (Z.to_nat n) dst).
Proof.
  intros Hsrc Hdst. unfold memcpy. cbv zeta.
  assert (H1 : (Z.to_nat n <=? length src)%nat = true)
    by (apply Nat.leb_le; lia).
  assert (H2 : (Z.to_nat n <=? length dst)%nat = true)
    by (apply Nat.leb_le; lia).
  rewrite H1, H2. reflexivity.
Qed.

Lemma memcpy_prefix (dst src : list byte) (n : nat) :
  (n <= length src)%nat ->
  firstn n (firstn n src ++ skipn n dst) = firstn n src.
Proof.
  intros H. rewrite firstn_app, firstn_firstn, Nat.min_id.
  rewrite length_firstn, Nat.min_l by exact H.
  rewrite Nat.sub_diag. cbn. apply app_nil_r.
Qed.

Lemma memcpy_suffix (dst src : list byte) (n : nat) :
  (n <= length src)%nat ->
  skipn n (firstn n src ++ skipn n dst) = skipn n dst.
Proof.
  intros H. rewrite skipn_app.
  rewrite length_firstn, Nat.min_l by exact H.
  rewrite Nat.sub_diag. cbn.
  rewrite skipn_all2; [reflexivity|].
  rewrite length_firstn. apply Nat.le_min_l.
Qed.

Lemma memcpy_length (dst src : list byte) (n : nat) :
  (n <= length src)%nat -> (n <= length dst)%nat ->
  length (firstn n src ++ skipn n dst) = length dst.
Proof.
  intros Hs Hd. rewrite length_app, length_firstn, length_skipn. lia.
Qed.

Lemma calls_set_calls (l : list Call) (st : State) :
  calls (set_calls l st) = l.
Proof. reflexivity. Qed.

Lemma link_after_app (l l' : list Call) :
  link_after (l ++ l') = fold_left link_step l' (link_after l).
Proof. unfold link_after. apply fold_left_app. Qed.

Lemma indicator_after_app (l l' : list Call) :
  indicator_after (l ++ l') = fold_left indicator_step l' (indicator_after l).
Proof. unfold indicator_after. apply fold_left_app. Qed.

Lemma count_app (p : Call -> bool) (l l' : list Call) :
  count p (l ++ l') = (count p l + count p l')%nat.
Proof. unfold count. rewrite filter_app. apply length_app. Qed.

(** [send_lora_packet] in closed form, whenever the copy stays inside both
    objects. *)
Lemma send_lora_packet_run (data : list byte) (size : Z) (st : State) :
  to_uint8 size <= Z.of_nat (length data) ->
  to_uint8 size <= Z.of_nat (length (g_tx_lora_data st)) ->
  send_lora_packet data size st =
    Some (true,
      set_calls
        (calls st ++
           [ Radio_Sleep;
             Radio_SetCadParams LORA_CAD_08_SYMBOL
               (p2p_sf (g_lorawan_settings st) + 13) 10 LORA_CAD_ONLY 0;
             digitalWrite LED_BUILTIN HIGH;
             Radio_StartCad ])
        (set_g_tx_lora_data
           (firstn (Z.to_nat (to_uint8 size)) data ++
            skipn (Z.to_nat (to_uint8 size)) (g_tx_lora_data st))
           (set_g_tx_data_len (to_uint8 size) st))).
Proof.
  intros Hd Hb. pose proof (to_uint8_range size) as Hr.
  unfold send_lora_packet. cbv zeta.
  destruct (256 <? to_uint8 size) eqn:E; [apply Z.ltb_lt in E; lia|].
  unfold bind, write, read, lift, call, ret. cbn.
  rewrite memcpy_defined by lia. cbn.
  repeat rewrite <- app_assoc. reflexivity.
Qed.

(** ** The send request *)

(** C1, as the code has it: a call of [send_lora_packet] made while the
    link is not [Listening] is not turned away.  The function holds no
    busy check: it returns [true], overwrites the pending transmit frame
    and its length, and calls sleep, set-CAD-parameters and start-CAD, so
    that the link is [Sensing] again.  The event flags and the result of
    the last send are left as they were. *)
Theorem send_lora_packet_no_busy_check
    (st : State) (data : list byte) (size : Z) :
  LinkState_of st <> Listening ->
  to_uint8 size <= Z.of_nat (length data) ->
  length (g_tx_lora_data st) = BUFFER_CAPACITY ->
  exists st',
    send_lora_packet data size st = Some (true, st') /\
    g_tx_data_len st' = to_uint8 size /\
    g_tx_lora_data st' =
      firstn (Z.to_nat (to_uint8 size)) data ++
      skipn (Z.to_nat (to_uint8 size)) (g_tx_lora_data st) /\
    calls st' =
      calls st ++
        [ Radio_Sleep;
          Radio_SetCadParams LORA_CAD_08_SYMBOL
            (p2p_sf (g_lorawan_settings st) + 13) 10 LORA_CAD_ONLY 0;
          digitalWrite LED_BUILTIN HIGH;
          Radio_StartCad ] /\
    LinkState_of st' = Sensing /\
    g_task_event_type st' = g_task_event_type st /\
    g_rx_fin_result st' = g_rx_fin_result st.
Proof.
  intros _ Hd Hcap. pose proof (to_uint8_range size) as Hr.
  eexists. split.
  - apply send_lora_packet_run; [exact Hd|].
    rewrite Hcap. unfold BUFFER_CAPACITY. lia.
  - repeat split; try reflexivity.
    unfold LinkState_of, set_calls. cbn [calls].
    rewrite link_after_app. reflexivity.
Qed.

(** A send accepted while a detection is in flight: the second request
    replaces the frame of the first and starts the radio over. *)
Lemma send_lora_packet_accepted_while_sensing :
  LinkState_of sensing_state = Sensing /\
  g_tx_data_len sensing_state = 3 /\
  exists st',
    send_lora_packet [x0a; x0b] 2 sensing_state = Some (true, st') /\
    g_tx_data_len st' = 2 /\
    firstn 3 (g_tx_lora_data sensing_state) = [x01; x02; x03] /\
    firstn 3 (g_tx_lora_data st') = [x0a; x0b; x03] /\
    calls st' =
      calls sensing_state ++
        [ Radio_Sleep;
          Radio_SetCadParams LORA_CAD_08_SYMBOL 20 10 LORA_CAD_ONLY 0;
          digitalWrite LED_BUILTIN HIGH;
          Radio_StartCad ].
Proof.
  split; [reflexivity|]. split; [reflexivity|].
  exists (exec (send_lora_packet [x0a; x0b] 2) sensing_state).
  by_evaluation.
Qed.

Lemma send_lora_packet_no_busy_check_witness :
  LinkState_of sensing_state <> Listening /\
  exists st',
    send_lora_packet [x0a; x0b] 2 sensing_state = Some (true, st') /\
    g_tx_data_len st' = 2 /\
    LinkState_of st' = Sensing.
Proof.
  split; [vm_compute; discriminate|].
  destruct (send_lora_packet_no_busy_check sensing_state [x0a; x0b] 2)
    as [st' [Hrun [Hlen [_ [_ [Hlink _]]]]]].
  - vm_compute. discriminate.
  - vm_compute. discriminate.
  - vm_compute. reflexivity.
  - exists st'. repeat split; assumption.
Defined.

(** C2, the code at a payload of 257 bytes: the [uint8_t] parameter
    receives 257 as 1, the comparison with 256 is false, and the request
    is accepted.  The function returns [true], records a length of 1,
    copies one byte, calls the radio and leaves the link [Sensing]. *)
Theorem send_lora_packet_257_bytes :
  LinkState_of listening_state = Listening /\
  exists st',
    send_lora_packet (repeat xff 257) 257 listening_state = Some (true, st') /\
    g_tx_data_len listening_state = 0 /\
    g_tx_data_len st' = 1 /\
    g_tx_lora_data listening_state = repeat x00 256 /\
    g_tx_lora_data st' = xff :: repeat x00 255 /\
    calls st' =
      calls listening_state ++
        [ Radio_Sleep;
          Radio_SetCadParams LORA_CAD_08_SYMBOL 20 10 LORA_CAD_ONLY 0;
          digitalWrite LED_BUILTIN HIGH;
          Radio_StartCad ] /\
    LinkState_of st' = Sensing.
Proof.
  split; [reflexivity|].
  exists (exec (send_lora_packet (repeat xff 257) 257) listening_state).
  by_evaluation.
Qed.

(** Up to 255 bytes the request is carried out in full: for every payload
    of at most 255 bytes requested while the link is [Listening],
    [send_lora_packet] returns [true], stores the payload and its length
    in the pending transmit frame (the rest of the buffer is untouched),
    puts the radio to sleep, sets the CAD parameters to an 8-symbol
    window, threshold [p2p_sf + 13], peak count 10, CAD-only mode and
    timeout 0, drives the indicator high, starts CAD, and leaves the link
    [Sensing]. *)
Theorem send_lora_packet_accepts (st : State) (payload : list byte) :
  (length payload <= 255)%nat ->
  LinkState_of st = Listening ->
  length (g_tx_lora_data st) = BUFFER_CAPACITY ->
  exists st',
    send_lora_packet payload (Z.of_nat (length payload)) st = Some (true, st') /\
    g_tx_data_len st' = Z.of_nat (length payload) /\
    firstn (length payload) (g_tx_lora_data st') = payload /\
    skipn (length payload) (g_tx_lora_data st') =
      skipn (length payload) (g_tx_lora_data st) /\
    calls st' =
      calls st ++
        [ Radio_Sleep;
          Radio_SetCadParams LORA_CAD_08_SYMBOL
            (p2p_sf (g_lorawan_settings st) + 13) 10 LORA_CAD_ONLY 0;
          digitalWrite LED_BUILTIN HIGH;
          Radio_StartCad ] /\
    indicator st' = Some HIGH /\
    LinkState_of st' = Sensing.
Proof.
  intros Hlen _ Hcap.
  assert (Hsz : to_uint8 (Z.of_nat (length payload)) = Z.of_nat (length payload))
    by (apply to_uint8_small; lia).
  eexists. split.
  - apply send_lora_packet_run; rewrite Hsz; [lia|].
    rewrite Hcap. unfold BUFFER_CAPACITY. lia.
  - rewrite Hsz, Nat2Z.id. cbn [g_tx_data_len g_tx_lora_data calls set_calls
      set_g_tx_lora_data set_g_tx_data_len].
    split; [reflexivity|].
    split; [rewrite memcpy_prefix by lia; apply firstn_all|].
    split; [apply memcpy_suffix; lia|].
    split; [reflexivity|].
    split.
    + unfold indicator, set_calls. cbn [calls].
      rewrite indicator_after_app. reflexivity.
    + unfold LinkState_of, set_calls. cbn [calls].
      rewrite link_after_app. reflexivity.
Qed.

(** C5, the code at a payload of 256 bytes, requested while [Listening]:
    the guard [size > 256] is written to let 256 through, but the
    [uint8_t] parameter receives 256 as 0.  The function returns [true]
    and starts CAD, with a pending length of 0 and nothing copied: the
    pending transmit frame is not the payload. *)
Lemma send_lora_packet_256_bytes_not_copied :
  LinkState_of listening_state = Listening /\
  length (repeat xff 256) = 256%nat /\
  exists st',
    send_lora_packet (repeat xff 256) 256 listening_state = Some (true, st') /\
    g_tx_data_len st' = 0 /\
    g_tx_lora_data st' = repeat x00 256 /\
    firstn 256 (g_tx_lora_data st') <> repeat xff 256.
Proof.
  split; [reflexivity|]. split; [reflexivity|].
  exists (exec (send_lora_packet (repeat xff 256) 256) listening_state).
  conjuncts; try (vm_compute; reflexivity).
  vm_compute. discriminate.
Qed.

Lemma send_lora_packet_accepts_witness :
  (length [x01; x02; x03] <= 255)%nat /\
  LinkState_of listening_state = Listening /\
  exists st',
    send_lora_packet [x01; x02; x03] 3 listening_state = Some (true, st') /\
    firstn 3 (g_tx_lora_data st') = [x01; x02; x03] /\
    LinkState_of st' = Sensing.
Proof.
  split; [cbn; lia|]. split; [reflexivity|].
  destruct (send_lora_packet_accepts listening_state [x01; x02; x03])
    as [st' [Hrun [_ [Hcopy [_ [_ [_ Hlink]]]]]]].
  - cbn. lia.
  - reflexivity.
  - reflexivity.
  - exists st'. repeat split; assumption.
Defined.

(** ** The callbacks *)

(** Or-ing a mask into a word keeps every bit the word had and sets every
    bit of the mask. *)
Lemma lor_keeps_bits (flags mask : Z) :
  Z.land (Z.lor flags mask) flags = flags.
Proof.
  apply Z.bits_inj'. intros i _.
  rewrite Z.land_spec, Z.lor_spec.
  destruct (Z.testbit flags i), (Z.testbit mask i); reflexivity.
Qed.

Lemma lor_sets_mask (flags mask : Z) :
  Z.land (Z.lor flags mask) mask = mask.
Proof.
  apply Z.bits_inj'. intros i _.
  rewrite Z.land_spec, Z.lor_spec.
  destruct (Z.testbit flags i), (Z.testbit mask i); reflexivity.
Qed.

Section Callbacks.

Variables (LORA_DATA LORA_TX_FIN : Z).
Variable RX_DATA_LEN_BITS : Z.

(** The two transmit handlers in closed form. *)
Lemma on_tx_done_run (st : State) :
  on_tx_done LORA_TX_FIN st =
    Some (tt,
      set_calls
        (calls st ++
           (if g_task_sem st =? NULL then []
            else [xSemaphoreGive (g_task_sem st)]) ++ [Radio_Rx 0])
        (set_g_task_event_type (Z.lor (g_task_event_type st) LORA_TX_FIN)
           (set_g_rx_fin_result true st))).
Proof.
  unfold on_tx_done, call, bind, write, read, ret. cbn.
  destruct (g_task_sem st =? NULL); cbn.
  - reflexivity.
  - rewrite <- app_assoc. reflexivity.
Qed.

Lemma on_tx_timeout_run (st : State) :
  on_tx_timeout LORA_TX_FIN st =
    Some (tt,
      set_calls
        (calls st ++
           (if g_task_sem st =? NULL then []
            else [xSemaphoreGive (g_task_sem st)]) ++ [Radio_Rx 0])
        (set_g_task_event_type (Z.lor (g_task_event_type st) LORA_TX_FIN)
           (set_g_rx_fin_result false st))).
Proof.
  unfold on_tx_timeout, call, bind, write, read, ret. cbn.
  destruct (g_task_sem st =? NULL); cbn.
  - reflexivity.
  - rewrite <- app_assoc. reflexivity.
Qed.

(** The receive handler in closed form, whenever the copy stays inside
    the payload and the receive buffer. *)
Lemma on_rx_done_run (payload : list byte) (size rssi snr : Z) (st : State) :
  0 <= size < 65536 ->
  size <= Z.of_nat (length payload) ->
  size <= Z.of_nat (length (g_rx_lora_data st)) ->
  on_rx_done LORA_DATA RX_DATA_LEN_BITS payload size rssi snr st =
    Some (tt,
      set_calls
        (calls st ++
           (if g_task_sem st =? NULL then []
            else [xSemaphoreGive (g_task_sem st)]) ++ [Radio_Rx 0])
        (set_g_task_event_type (Z.lor (g_task_event_type st) LORA_DATA)
           (set_g_rx_data_len (to_unsigned RX_DATA_LEN_BITS size)
              (set_g_rx_lora_data
                 (firstn (Z.to_nat size) payload ++
                  skipn (Z.to_nat size) (g_rx_lora_data st))
                 (set_g_last_snr (to_int8 snr)
                    (set_g_last_rssi (to_int16 rssi) st)))))).
Proof.
  intros Hsz Hp Hb.
  unfold on_rx_done. cbv zeta. rewrite (to_uint16_small size Hsz).
  unfold call, bind, write, read, lift, ret.
  cbn -[to_int16 to_int8 to_unsigned Z.to_nat Z.lor].
  rewrite memcpy_defined by lia.
  cbn -[to_int16 to_int8 to_unsigned Z.to_nat Z.lor].
  destruct (g_task_sem st =? NULL);
    cbn -[to_int16 to_int8 to_unsigned Z.to_nat Z.lor].
  - reflexivity.
  - rewrite <- app_assoc. reflexivity.
Qed.

Lemma link_after_rx (l w : list Call) :
  link_after (l ++ w ++ [Radio_Rx 0]) = Listening.
Proof.
  rewrite app_assoc, link_after_app. reflexivity.
Qed.

Lemma count_wake_handler (l : list Call) (sem : Z) :
  count is_wake
    (l ++ (if sem =? NULL then [] else [xSemaphoreGive sem]) ++ [Radio_Rx 0])
  = (count is_wake l + (if (sem =? NULL)%Z then 0 else 1))%nat.
Proof.
  rewrite count_app. destruct (sem =? NULL); reflexivity.
Qed.

(** C3, as the code has it: the transmit-complete and the
    transmit-timeout handler both (a) start continuous receive again with
    [Radio.Rx(0)], (b) or [LORA_TX_FIN] into the event flags, which
    clears no bit, (c) set the result of the last send to [true]
    (complete) and [false] (timeout), and (d) give the wake semaphore
    exactly once when it exists, and not at all when [g_task_sem] is
    null. *)
Theorem tx_handlers_report (st : State) :
  exists st_done st_timeout,
    on_tx_done LORA_TX_FIN st = Some (tt, st_done) /\
    on_tx_timeout LORA_TX_FIN st = Some (tt, st_timeout) /\
    (calls st_done =
       calls st ++
         (if g_task_sem st =? NULL then []
          else [xSemaphoreGive (g_task_sem st)]) ++ [Radio_Rx 0] /\
     calls st_timeout =
       calls st ++
         (if g_task_sem st =? NULL then []
          else [xSemaphoreGive (g_task_sem st)]) ++ [Radio_Rx 0] /\
     LinkState_of st_done = Listening /\
     LinkState_of st_timeout = Listening) /\
    (g_task_event_type st_done = Z.lor (g_task_event_type st) LORA_TX_FIN /\
     g_task_event_type st_timeout = Z.lor (g_task_event_type st) LORA_TX_FIN /\
     Z.land (g_task_event_type st_done) LORA_TX_FIN = LORA_TX_FIN /\
     Z.land (g_task_event_type st_done) (g_task_event_type st) =
       g_task_event_type st) /\
    (g_rx_fin_result st_done = true /\ g_rx_fin_result st_timeout = false) /\
    (count is_wake (calls st_done) =
       (count is_wake (calls st) +
          (if (g_task_sem st =? NULL)%Z then 0 else 1))%nat /\
     count is_wake (calls st_timeout) =
       (count is_wake (calls st) +
          (if (g_task_sem st =? NULL)%Z then 0 else 1))%nat).
Proof.
  eexists. eexists.
  split; [apply on_tx_done_run|].
  split; [apply on_tx_timeout_run|].
  unfold LinkState_of, set_calls.
  cbn [calls g_task_event_type g_rx_fin_result set_g_task_event_type
       set_g_rx_fin_result].
  repeat split;
    auto using link_after_rx, lor_sets_mask, lor_keeps_bits,
      count_wake_handler.
Qed.

(** C4, as the code has it: for every invocation of the
    receive-complete handler with a [size] that fits the payload, the
    256-byte receive buffer and the cell that stores the length
    ([g_rx_data_len], whose width is a parameter: at most 255 for a cell of
    8 bits), whatever the state of the link, the handler records [rssi]
    and [snr], copies exactly the first [size] bytes of the payload over
    the start of the receive buffer, sets the stored length to [size],
    ors [LORA_DATA] into the event flags, gives the wake semaphore when it
    exists (and does not when [g_task_sem] is null), and starts continuous
    receive again. *)
Theorem on_rx_done_delivers
    (st : State) (payload : list byte) (size rssi snr : Z) :
  0 <= size <= 256 ->
  size < 2 ^ RX_DATA_LEN_BITS ->
  size <= Z.of_nat (length payload) ->
  length (g_rx_lora_data st) = BUFFER_CAPACITY ->
  -32768 <= rssi < 32768 ->
  -128 <= snr < 128 ->
  exists st',
    on_rx_done LORA_DATA RX_DATA_LEN_BITS payload size rssi snr st =
      Some (tt, st') /\
    g_last_rssi st' = rssi /\
    g_last_snr st' = snr /\
    firstn (Z.to_nat size) (g_rx_lora_data st') =
      firstn (Z.to_nat size) payload /\
    skipn (Z.to_nat size) (g_rx_lora_data st') =
      skipn (Z.to_nat size) (g_rx_lora_data st) /\
    g_rx_data_len st' = size /\
    g_task_event_type st' = Z.lor (g_task_event_type st) LORA_DATA /\
    Z.land (g_task_event_type st') LORA_DATA = LORA_DATA /\
    calls st' =
      calls st ++
        (if g_task_sem st =? NULL then []
         else [xSemaphoreGive (g_task_sem st)]) ++ [Radio_Rx 0] /\
    LinkState_of st' = Listening.
Proof.
  intros Hsz Hcell Hp Hcap Hrssi Hsnr.
  eexists. split.
  - apply on_rx_done_run; [lia | exact Hp |].
    rewrite Hcap. unfold BUFFER_CAPACITY. lia.
  - unfold LinkState_of, set_calls.
    cbn [calls g_last_rssi g_last_snr g_rx_lora_data g_rx_data_len
         g_task_event_type set_g_task_event_type set_g_rx_data_len
         set_g_rx_lora_data set_g_last_snr set_g_last_rssi].
    repeat split;
      auto using to_int16_small, to_int8_small, lor_sets_mask, link_after_rx.
    + apply memcpy_prefix. lia.
    + apply memcpy_suffix. lia.
    + apply to_unsigned_small. lia.
Qed.

(** The CAD-done handler in closed form. *)
Lemma on_cad_done_run (cadResult : bool) (st : State) :
  on_cad_done cadResult st =
    Some (tt,
      set_calls
        (calls st ++
           [ if cadResult then Radio_Rx 0
             else Radio_Send (g_tx_lora_data st) (g_tx_data_len st) ])
        st).
Proof. destruct cadResult; reflexivity. Qed.

(** C6: when the CAD-done handler is called with the channel busy, it
    starts continuous receive again, which puts the link back to
    [Listening], and does nothing else: the event flags and the result
    of the last send are unchanged, so [LORA_TX_FIN] is not set by it,
    and the wake semaphore is not given. *)
Theorem on_cad_done_busy (st : State) :
  on_cad_done true st =
    Some (tt, set_calls (calls st ++ [Radio_Rx 0]) st) /\
  LinkState_of (exec (on_cad_done true) st) = Listening /\
  g_task_event_type (exec (on_cad_done true) st) = g_task_event_type st /\
  g_rx_fin_result (exec (on_cad_done true) st) = g_rx_fin_result st /\
  count is_wake (calls (exec (on_cad_done true) st)) =
    count is_wake (calls st).
Proof.
  split; [reflexivity|].
  unfold exec. rewrite on_cad_done_run.
  unfold LinkState_of, set_calls.
  cbn [calls g_task_event_type g_rx_fin_result].
  rewrite link_after_app, count_app.
  repeat split. apply Nat.add_0_r.
Qed.

(** C7: when the CAD-done handler is called with the channel clear, it
    calls the radio's transmit primitive with the pending transmit
    buffer and the pending length, and the link is [Transmitting].
    Straight after a request accepted for a payload of at most 255
    bytes, these are the payload's bytes and the payload's length. *)
Theorem on_cad_done_clear_transmits (st : State) :
  on_cad_done false st =
    Some (tt,
      set_calls
        (calls st ++ [Radio_Send (g_tx_lora_data st) (g_tx_data_len st)])
        st) /\
  LinkState_of (exec (on_cad_done false) st) = Transmitting /\
  forall payload : list byte,
    (length payload <= 255)%nat ->
    length (g_tx_lora_data st) = BUFFER_CAPACITY ->
    exists st1 st2 buffer,
      send_lora_packet payload (Z.of_nat (length payload)) st =
        Some (true, st1) /\
      on_cad_done false st1 = Some (tt, st2) /\
      calls st2 =
        calls st1 ++ [Radio_Send buffer (Z.of_nat (length payload))] /\
      firstn (length payload) buffer = payload /\
      LinkState_of st2 = Transmitting.
Proof.
  split; [reflexivity|]. split.
  - unfold exec. rewrite on_cad_done_run.
    unfold LinkState_of, set_calls. cbn [calls].
    rewrite link_after_app. reflexivity.
  - intros payload Hlen Hcap.
    assert (Hsz : to_uint8 (Z.of_nat (length payload)) =
                  Z.of_nat (length payload))
      by (apply to_uint8_small; lia).
    eexists. eexists. eexists. split.
    + apply send_lora_packet_run; rewrite Hsz; [lia|].
      rewrite Hcap. unfold BUFFER_CAPACITY. lia.
    + split; [reflexivity|].
      rewrite Hsz, Nat2Z.id. cbn [calls set_calls g_tx_data_len
        g_tx_lora_data set_g_tx_lora_data set_g_tx_data_len].
      split; [reflexivity|].
      split; [rewrite memcpy_prefix by lia; apply firstn_all|].
      unfold LinkState_of, set_calls. cbn [calls].
      rewrite link_after_app. reflexivity.
Qed.


End Callbacks.

(** In the closed statements below the event masks are instantiated with
    8 for [LORA_DATA] and 16 for [LORA_TX_FIN], and the stored receive
    length with a cell of 8 bits. *)

(** With no semaphore created, neither transmit handler wakes anybody:
    the only call each makes is [Radio.Rx(0)]. *)
Lemma tx_handlers_null_semaphore_no_wake :
  g_task_sem transmitting_state = NULL /\
  exists st_done st_timeout,
    on_tx_done 16 transmitting_state = Some (tt, st_done) /\
    on_tx_timeout 16 transmitting_state = Some (tt, st_timeout) /\
    calls st_done = calls transmitting_state ++ [Radio_Rx 0] /\
    calls st_timeout = calls transmitting_state ++ [Radio_Rx 0] /\
    count is_wake (calls st_done) = count is_wake (calls transmitting_state) /\
    count is_wake (calls st_timeout) = count is_wake (calls transmitting_state).
Proof.
  split; [reflexivity|].
  exists (exec (on_tx_done 16) transmitting_state).
  exists (exec (on_tx_timeout 16) transmitting_state).
  by_evaluation.
Qed.

(** With no semaphore created, the receive handler stores the frame and
    wakes nobody. *)
Lemma on_rx_done_null_semaphore_no_wake :
  g_task_sem listening_state = NULL /\
  exists st',
    on_rx_done 8 8 [x48; x69] 2 (-70) 9 listening_state = Some (tt, st') /\
    g_rx_data_len st' = 2 /\
    calls st' = calls listening_state ++ [Radio_Rx 0] /\
    count is_wake (calls st') = count is_wake (calls listening_state).
Proof.
  split; [reflexivity|].
  exists (exec (on_rx_done 8 8 [x48; x69] 2 (-70) 9) listening_state).
  by_evaluation.
Qed.

Lemma on_rx_done_delivers_witness :
  exists st',
    on_rx_done 8 8 [x48; x69] 2 (-70) 9 listening_state_with_semaphore =
      Some (tt, st') /\
    g_last_rssi st' = -70 /\
    g_last_snr st' = 9 /\
    firstn 2 (g_rx_lora_data st') = [x48; x69] /\
    g_rx_data_len st' = 2 /\
    calls st' =
      calls listening_state_with_semaphore ++
        [xSemaphoreGive 536879104; Radio_Rx 0].
Proof.
  destruct (on_rx_done_delivers 8 8 listening_state_with_semaphore
              [x48; x69] 2 (-70) 9)
    as [st' [Hrun [Hrssi [Hsnr [Hcopy [_ [Hlen [_ [_ [Hcalls _]]]]]]]]]].
  - lia.
  - reflexivity.
  - cbn. lia.
  - reflexivity.
  - lia.
  - lia.
  - exists st'. repeat split; assumption.
Defined.

Lemma on_cad_done_clear_transmits_witness :
  exists st1 st2 buffer,
    send_lora_packet [x01; x02; x03] 3 listening_state = Some (true, st1) /\
    on_cad_done false st1 = Some (tt, st2) /\
    calls st2 = calls st1 ++ [Radio_Send buffer 3] /\
    firstn 3 buffer = [x01; x02; x03] /\
    LinkState_of st2 = Transmitting.
Proof.
  destruct (on_cad_done_clear_transmits listening_state) as [_ [_ H]].
  apply (H [x01; x02; x03]).
  - cbn. lia.
  - reflexivity.
Defined.


(** ** Initialisation *)

(** The configuration pass in closed form. *)
Lemma init_lora_configure_run (st : State) :
  init_lora_configure st =
    Some (0,
      set_g_lorawan_initialized true
        (set_calls
           (calls st ++ configuration_calls (g_lorawan_settings st)) st)).
Proof.
  unfold init_lora_configure, configuration_calls, call, bind, write, read, ret.
  cbn. destruct (send_repeat_time (g_lorawan_settings st) =? 0); cbn;
    repeat rewrite <- app_assoc; reflexivity.
Qed.

(** [init_lora] in closed form, by cases on the initialised flag and on
    the result of the bring-up. *)
Lemma init_lora_initialized (hw : Z) (st : State) :
  g_lorawan_initialized st = true ->
  init_lora hw st =
    Some (0,
      set_g_lorawan_initialized true
        (set_calls
           (calls st ++ configuration_calls (g_lorawan_settings st)) st)).
Proof.
  intros Hinit. unfold init_lora, bind, read. rewrite Hinit. cbn [negb].
  apply init_lora_configure_run.
Qed.

Lemma init_lora_bring_up_fails (hw : Z) (st : State) :
  g_lorawan_initialized st = false ->
  hw <> 0 ->
  init_lora hw st = Some (-1, set_calls (calls st ++ [lora_rak4630_init hw]) st).
Proof.
  intros Hinit Hhw. unfold init_lora, bind, read. rewrite Hinit. cbn [negb].
  unfold call, write. apply Z.eqb_neq in Hhw. rewrite Hhw. reflexivity.
Qed.

Lemma init_lora_first (st : State) :
  g_lorawan_initialized st = false ->
  init_lora 0 st =
    Some (0,
      set_g_lorawan_initialized true
        (set_calls
           (calls st ++
              [lora_rak4630_init 0; Radio_Init registered_handlers] ++
              configuration_calls (g_lorawan_settings st))
           (set_RadioEvents registered_handlers st))).
Proof.
  intros Hinit. unfold init_lora, bind, read. rewrite Hinit. cbn [negb].
  unfold call, write. cbn [Z.eqb negb].
  rewrite init_lora_configure_run.
  unfold set_g_lorawan_initialized, set_calls, set_RadioEvents.
  cbn -[configuration_calls]. rewrite <- !app_assoc. reflexivity.
Qed.

Lemma setup_after_configuration (s : s_lorawan_settings) (r : RadioSetup) :
  fold_left setup_step (configuration_calls s) r =
    mkRadioSetup
      (Some (Radio_SetChannel (p2p_frequency s)))
      (Some (Radio_SetTxConfig MODEM_LORA (p2p_tx_power s) 0 (p2p_bandwidth s)
               (p2p_sf s) (p2p_cr s) (p2p_preamble_len s) false true 0 0
               false 5000))
      (Some (Radio_SetRxConfig MODEM_LORA (p2p_bandwidth s) (p2p_sf s)
               (p2p_cr s) 0 (p2p_preamble_len s) (p2p_symbol_timeout s) false
               0 true 0 0 false true))
      Listening.
Proof.
  unfold configuration_calls.
  destruct (send_repeat_time s =? 0); reflexivity.
Qed.

Lemma configuration_no_bring_up (s : s_lorawan_settings) :
  count is_bring_up (configuration_calls s) = 0%nat /\
  count is_registration (configuration_calls s) = 0%nat.
Proof.
  unfold configuration_calls.
  destruct (send_repeat_time s =? 0); split; reflexivity.
Qed.

(** C8: [init_lora] called twice in a row, the first call on the
    uninitialised link with a bring-up that succeeds.  The first call runs
    the hardware bring-up and registers the six handlers, then configures
    the radio; the second call, whatever the bring-up would return, makes
    exactly the configuration calls of the first and neither of the other
    two.  Over both calls the bring-up and the registration happen once
    each, and the radio is left with the same channel, transmit
    configuration, receive configuration and mode (continuous receive)
    after the second call as after the first. *)
Theorem init_lora_twice (st : State) (hw2 : Z) :
  g_lorawan_initialized st = false ->
  exists st1 st2,
    init_lora 0 st = Some (0, st1) /\
    init_lora hw2 st1 = Some (0, st2) /\
    calls st1 =
      calls st ++
        [lora_rak4630_init 0; Radio_Init registered_handlers] ++
        configuration_calls (g_lorawan_settings st) /\
    calls st2 = calls st1 ++ configuration_calls (g_lorawan_settings st) /\
    count is_bring_up (calls st2) = S (count is_bring_up (calls st)) /\
    count is_registration (calls st2) = S (count is_registration (calls st)) /\
    radio_setup st2 = radio_setup st1 /\
    setup_mode (radio_setup st2) = Listening /\
    LinkState_of st2 = Listening.
Proof.
  intros Hinit.
  pose proof (configuration_no_bring_up (g_lorawan_settings st)) as [Hb Hr].
  eexists. eexists.
  split; [apply init_lora_first; exact Hinit|].
  split; [apply init_lora_initialized; reflexivity|].
  unfold radio_setup, LinkState_of, set_g_lorawan_initialized, set_calls,
    set_RadioEvents.
  cbn [calls g_lorawan_settings].
  conjuncts.
  - reflexivity.
  - reflexivity.
  - rewrite !count_app, Hb. cbn. lia.
  - rewrite !count_app, Hr. cbn. lia.
  - rewrite !fold_left_app, !setup_after_configuration. reflexivity.
  - rewrite !fold_left_app, !setup_after_configuration. reflexivity.
  - unfold configuration_calls.
    rewrite !app_assoc, link_after_app. reflexivity.
Qed.

Lemma init_lora_twice_witness :
  g_lorawan_initialized (boot scenario_settings) = false /\
  exists st1 st2,
    init_lora 0 (boot scenario_settings) = Some (0, st1) /\
    init_lora 0 st1 = Some (0, st2) /\
    count is_bring_up (calls st2) = 1%nat /\
    count is_registration (calls st2) = 1%nat /\
    radio_setup st2 = radio_setup st1.
Proof.
  split; [reflexivity|].
  destruct (init_lora_twice (boot scenario_settings) 0)
    as [st1 [st2 [H1 [H2 [_ [_ [Hb [Hr [Hs _]]]]]]]]].
  - reflexivity.
  - exists st1, st2. conjuncts; assumption.
Defined.

(** The three ways [init_lora] can go. *)
Lemma init_lora_cases (hw : Z) (st : State) (r : Z) (st' : State) :
  init_lora hw st = Some (r, st') ->
  (g_lorawan_initialized st = true /\ r = 0 /\
   st' =
     set_g_lorawan_initialized true
       (set_calls (calls st ++ configuration_calls (g_lorawan_settings st)) st))
  \/
  (g_lorawan_initialized st = false /\ hw = 0 /\ r = 0 /\
   st' =
     set_g_lorawan_initialized true
       (set_calls
          (calls st ++
             [lora_rak4630_init 0; Radio_Init registered_handlers] ++
             configuration_calls (g_lorawan_settings st))
          (set_RadioEvents registered_handlers st)))
  \/
  (g_lorawan_initialized st = false /\ hw <> 0 /\ r = -1 /\
   st' = set_calls (calls st ++ [lora_rak4630_init hw]) st).
Proof.
  intros H. destruct (g_lorawan_initialized st) eqn:Hinit.
  - rewrite init_lora_initialized in H by exact Hinit.
    injection H as <- <-. left. auto.
  - destruct (Z.eq_dec hw 0) as [->|Hhw].
    + rewrite init_lora_first in H by exact Hinit.
      injection H as <- <-. right. left. auto.
    + rewrite init_lora_bring_up_fails in H by assumption.
      injection H as <- <-. right. right. auto.
Qed.

(** ** The indicator *)

Lemma link_after_configuration (l : list Call) (s : s_lorawan_settings) :
  link_after (l ++ configuration_calls s) = Listening.
Proof.
  unfold configuration_calls.
  rewrite !app_assoc, link_after_app. reflexivity.
Qed.

Lemma indicator_after_configuration (l : list Call) (s : s_lorawan_settings) :
  indicator_after (l ++ configuration_calls s) = Some LOW.
Proof.
  unfold configuration_calls.
  rewrite !app_assoc, indicator_after_app. reflexivity.
Qed.









Section Indicator.

Variables (LORA_DATA LORA_TX_FIN : Z).
Variable RX_DATA_LEN_BITS : Z.




End Indicator.

Lemma reachable_listening_state (LORA_DATA LORA_TX_FIN RX_DATA_LEN_BITS : Z) :
  reachable LORA_DATA LORA_TX_FIN RX_DATA_LEN_BITS listening_state.
Proof.
  apply (reachable_step _ _ _ (boot scenario_settings)).
  - apply reachable_boot.
  - apply (step_init_lora _ _ _ 0 _ 0). vm_compute. reflexivity.
Qed.

Lemma reachable_sensing_state (LORA_DATA LORA_TX_FIN RX_DATA_LEN_BITS : Z) :
  reachable LORA_DATA LORA_TX_FIN RX_DATA_LEN_BITS sensing_state.
Proof.
  apply (reachable_step _ _ _ listening_state).
  - apply reachable_listening_state.
  - apply (step_send_lora_packet _ _ _ [x01; x02; x03] 3 _ true).
    vm_compute. reflexivity.
Qed.

Lemma reachable_transmitting_state
    (LORA_DATA LORA_TX_FIN RX_DATA_LEN_BITS : Z) :
  reachable LORA_DATA LORA_TX_FIN RX_DATA_LEN_BITS transmitting_state.
Proof.
  apply (reachable_step _ _ _ sensing_state).
  - apply reachable_sensing_state.
  - apply (step_on_cad_done _ _ _ false). vm_compute. reflexivity.
Qed.



(** ** The frame buffers keep their capacity *)

Lemma memcpy_keeps_length (dst src : list byte) (n : Z) (buf : list byte) :
  memcpy dst src n = Some buf -> length buf = length dst.
Proof.
  unfold memcpy. cbv zeta.
  destruct (Z.to_nat n <=? length src)%nat eqn:Hs; [|discriminate].
  destruct (Z.to_nat n <=? length dst)%nat eqn:Hd; [|discriminate].
  cbn [andb]. intros H. injection H as <-.
  apply Nat.leb_le in Hs, Hd. apply memcpy_length; assumption.
Qed.

Lemma init_lora_buffers (hw : Z) (st : State) (r : Z) (st' : State) :
  init_lora hw st = Some (r, st') ->
  g_tx_lora_data st' = g_tx_lora_data st /\
  g_rx_lora_data st' = g_rx_lora_data st.
Proof.
  intros H. destruct (g_lorawan_initialized st) eqn:Hinit.
  - rewrite init_lora_initialized in H by exact Hinit.
    injection H as <- <-. split; reflexivity.
  - destruct (Z.eq_dec hw 0) as [->|Hhw].
    + rewrite init_lora_first in H by exact Hinit.
      injection H as <- <-. split; reflexivity.
    + rewrite init_lora_bring_up_fails in H by assumption.
      injection H as <- <-. split; reflexivity.
Qed.

Lemma send_lora_packet_buffers
    (data : list byte) (size : Z) (st : State) (r : bool) (st' : State) :
  send_lora_packet data size st = Some (r, st') ->
  length (g_tx_lora_data st') = length (g_tx_lora_data st) /\
  g_rx_lora_data st' = g_rx_lora_data st.
Proof.
  unfold send_lora_packet. cbv zeta.
  destruct (256 <? to_uint8 size).
  - unfold ret. intros H. injection H as <- <-. split; reflexivity.
  - unfold call, bind, write, read, lift, ret. cbn -[memcpy].
    destruct (memcpy (g_tx_lora_data st) data (to_uint8 size)) as [buf|] eqn:E;
      [|discriminate].
    cbn. intros H. injection H as <- <-. cbn.
    split; [eapply memcpy_keeps_length; exact E | reflexivity].
Qed.

Lemma on_rx_done_buffers
    (mask bits : Z) (payload : list byte) (size rssi snr : Z)
    (st st' : State) :
  on_rx_done mask bits payload size rssi snr st = Some (tt, st') ->
  g_tx_lora_data st' = g_tx_lora_data st /\
  length (g_rx_lora_data st') = length (g_rx_lora_data st).
Proof.
  unfold on_rx_done. cbv zeta.
  unfold call, bind, write, read, lift, ret.
  cbn -[memcpy to_int16 to_int8 to_uint16 to_unsigned Z.lor].
  destruct (memcpy (g_rx_lora_data st) payload (to_uint16 size)) as [buf|] eqn:E;
    [|discriminate].
  cbn -[to_int16 to_int8 to_uint16 to_unsigned Z.lor].
  destruct (g_task_sem st =? NULL);
    cbn -[to_int16 to_int8 to_uint16 to_unsigned Z.lor];
    intros H; injection H as <-;
    (split; [reflexivity | eapply memcpy_keeps_length; exact E]).
Qed.

(** In every reachable state both frame buffers hold 256 bytes: the
    hypothesis on the buffer made by the statements above is met wherever
    the link can get to. *)
Lemma reachable_buffers
    (LORA_DATA LORA_TX_FIN RX_DATA_LEN_BITS : Z) (st : State) :
  reachable LORA_DATA LORA_TX_FIN RX_DATA_LEN_BITS st ->
  length (g_tx_lora_data st) = BUFFER_CAPACITY /\
  length (g_rx_lora_data st) = BUFFER_CAPACITY.
Proof.
  intros Hreach. induction Hreach as [s | st st' _ [IHtx IHrx] Hstep].
  - split; apply repeat_length.
  - destruct Hstep as
      [ hw st r st' H | data size st r st' H | st st' H
      | payload size rssi snr st st' H | st st' H | st st' H | st st' H
      | cadResult st st' H | s sem flags st ].
    + destruct (init_lora_buffers _ _ _ _ H) as [-> ->]. auto.
    + destruct (send_lora_packet_buffers _ _ _ _ _ H) as [-> ->]. auto.
    + rewrite on_tx_done_run in H. injection H as <-. auto.
    + destruct (on_rx_done_buffers _ _ _ _ _ _ _ _ H) as [-> ->]. auto.
    + rewrite on_tx_timeout_run in H. injection H as <-. auto.
    + injection H as <-. auto.
    + injection H as <-. auto.
    + rewrite on_cad_done_run in H. injection H as <-. auto.
    + auto.
Qed.

(** * Further properties of [lora.cpp] *)

(** ** What a returning call has done *)

Lemma memcpy_inv (dst src : list byte) (n : Z) (buf : list byte) :
  memcpy dst src n = Some buf ->
  (Z.to_nat n <= length src)%nat /\
  (Z.to_nat n <= length dst)%nat /\
  buf = firstn (Z.to_nat n) src ++ skipn (Z.to_nat n) dst.
Proof.
  unfold memcpy. cbv zeta.
  destruct (Z.to_nat n <=? length src)%nat eqn:Hs; [|discriminate].
  destruct (Z.to_nat n <=? length dst)%nat eqn:Hd; [|discriminate].
  cbn [andb]. intros H. injection H as <-.
  apply Nat.leb_le in Hs, Hd. auto.
Qed.

Lemma send_lora_packet_inv
    (data : list byte) (size : Z) (st : State) (r : bool) (st' : State) :
  send_lora_packet data size st = Some (r, st') ->
  r = true /\
  exists buf : list byte,
    memcpy (g_tx_lora_data st) data (to_uint8 size) = Some buf /\
    st' =
      set_calls
        (calls st ++
           [ Radio_Sleep;
             Radio_SetCadParams LORA_CAD_08_SYMBOL
               (p2p_sf (g_lorawan_settings st) + 13) 10 LORA_CAD_ONLY 0;
             digitalWrite LED_BUILTIN HIGH;
             Radio_StartCad ])
        (set_g_tx_lora_data buf (set_g_tx_data_len (to_uint8 size) st)).
Proof.
  pose proof (to_uint8_range size) as Hr.
  unfold send_lora_packet. cbv zeta.
  destruct (256 <? to_uint8 size) eqn:E; [apply Z.ltb_lt in E; lia|].
  unfold call, bind, write, read, lift, ret. cbn -[memcpy].
  destruct (memcpy (g_tx_lora_data st) data (to_uint8 size)) as [buf|];
    [|discriminate].
  cbn. intros H. injection H as <- <-.
  split; [reflexivity|]. exists buf. split; [reflexivity|].
  cbn. rewrite <- !app_assoc. reflexivity.
Qed.

Lemma on_rx_done_inv
    (mask bits : Z) (payload : list byte) (size rssi snr : Z)
    (st st' : State) :
  on_rx_done mask bits payload size rssi snr st = Some (tt, st') ->
  exists buf : list byte,
    memcpy (g_rx_lora_data st) payload (to_uint16 size) = Some buf /\
    st' =
      set_calls
        (calls st ++
           (if g_task_sem st =? NULL then []
            else [xSemaphoreGive (g_task_sem st)]) ++ [Radio_Rx 0])
        (set_g_task_event_type (Z.lor (g_task_event_type st) mask)
           (set_g_rx_data_len (to_unsigned bits (to_uint16 size))
              (set_g_rx_lora_data buf
                 (set_g_last_snr (to_int8 snr)
                    (set_g_last_rssi (to_int16 rssi) st))))).
Proof.
  unfold on_rx_done. cbv zeta.
  unfold call, bind, write, read, lift, ret.
  cbn -[memcpy to_int16 to_int8 to_uint16 to_unsigned Z.lor].
  destruct (memcpy (g_rx_lora_data st) payload (to_uint16 size)) as [buf|];
    [|discriminate].
  cbn -[to_int16 to_int8 to_uint16 to_unsigned Z.lor].
  destruct (g_task_sem st =? NULL);
    cbn -[to_int16 to_int8 to_uint16 to_unsigned Z.lor];
    intros H; injection H as <-; exists buf; (split; [reflexivity|]).
  - reflexivity.
  - rewrite <- app_assoc. reflexivity.
Qed.

(** X1: [send_lora_packet] never turns a request away.  Whatever the data,
    the size written at the call and the globals, if the call returns it
    returns [true]: it has recorded a length between 0 and 255 (the size
    reduced to eight bits), made its four calls, and left the link
    [Sensing] with the indicator high. *)
Theorem send_lora_packet_never_rejects
    (data : list byte) (size : Z) (st : State) (r : bool) (st' : State) :
  send_lora_packet data size st = Some (r, st') ->
  r = true /\
  g_tx_data_len st' = size mod 256 /\
  0 <= g_tx_data_len st' <= 255 /\
  calls st' =
    calls st ++
      [ Radio_Sleep;
        Radio_SetCadParams LORA_CAD_08_SYMBOL
          (p2p_sf (g_lorawan_settings st) + 13) 10 LORA_CAD_ONLY 0;
        digitalWrite LED_BUILTIN HIGH;
        Radio_StartCad ] /\
  LinkState_of st' = Sensing /\
  indicator st' = Some HIGH.
Proof.
  intros H. pose proof (to_uint8_range size) as Hr.
  destruct (send_lora_packet_inv _ _ _ _ _ H) as [-> [buf [_ ->]]].
  unfold LinkState_of, indicator. rewrite !calls_set_calls.
  rewrite link_after_app, indicator_after_app.
  cbn [g_tx_data_len set_calls set_g_tx_lora_data set_g_tx_data_len].
  unfold to_uint8 in *. conjuncts; try reflexivity; lia.
Qed.

Lemma send_lora_packet_never_rejects_witness :
  exists st',
    send_lora_packet (repeat xff 300) 300 listening_state = Some (true, st') /\
    g_tx_data_len st' = 44.
Proof.
  exists (exec (send_lora_packet (repeat xff 300) 300) listening_state).
  assert (H : send_lora_packet (repeat xff 300) 300 listening_state =
              Some (true,
                    exec (send_lora_packet (repeat xff 300) 300) listening_state))
    by (vm_compute; reflexivity).
  split; [exact H|].
  destruct (send_lora_packet_never_rejects _ _ _ _ _ H) as [_ [Hlen _]].
  exact Hlen.
Defined.

(** X2: the length of a request wraps at 256.  For a payload of any
    length, with the transmit buffer at its 256 bytes, the request is
    accepted; the pending length is the payload's length modulo 256, just
    that many leading bytes of the payload are copied, and the rest of the
    buffer is untouched. *)
Theorem send_lora_packet_length_wraps (st : State) (payload : list byte) :
  length (g_tx_lora_data st) = BUFFER_CAPACITY ->
  exists st',
    send_lora_packet payload (Z.of_nat (length payload)) st = Some (true, st') /\
    g_tx_data_len st' = Z.of_nat (length payload mod 256) /\
    firstn (length payload mod 256) (g_tx_lora_data st') =
      firstn (length payload mod 256) payload /\
    skipn (length payload mod 256) (g_tx_lora_data st') =
      skipn (length payload mod 256) (g_tx_lora_data st) /\
    length (g_tx_lora_data st') = BUFFER_CAPACITY.
Proof.
  intros Hcap.
  assert (Hsz : to_uint8 (Z.of_nat (length payload)) =
                Z.of_nat (length payload mod 256)).
  { unfold to_uint8. rewrite Nat2Z.inj_mod. reflexivity. }
  assert (Hlt : (length payload mod 256 < 256)%nat)
    by (apply Nat.mod_upper_bound; discriminate).
  assert (Hle : (length payload mod 256 <= length payload)%nat)
    by (apply Nat.Div0.mod_le).
  eexists. split.
  - apply send_lora_packet_run; rewrite Hsz; [lia|].
    rewrite Hcap. unfold BUFFER_CAPACITY. lia.
  - rewrite Hsz, Nat2Z.id.
    cbn [g_tx_data_len g_tx_lora_data set_calls set_g_tx_lora_data
         set_g_tx_data_len].
    conjuncts.
    + reflexivity.
    + apply memcpy_prefix. exact Hle.
    + apply memcpy_suffix. exact Hle.
    + rewrite memcpy_length; [exact Hcap | exact Hle |].
      rewrite Hcap. unfold BUFFER_CAPACITY. lia.
Qed.

Lemma send_lora_packet_length_wraps_witness :
  length (g_tx_lora_data listening_state) = BUFFER_CAPACITY /\
  exists st',
    send_lora_packet (repeat xff 300) 300 listening_state = Some (true, st') /\
    g_tx_data_len st' = 44.
Proof.
  split; [reflexivity|].
  destruct (send_lora_packet_length_wraps listening_state (repeat xff 300))
    as [st' [Hrun [Hlen _]]].
  - reflexivity.
  - exists st'. split; [exact Hrun | exact Hlen].
Defined.

(** ** More on initialisation *)

(** X3: a bring-up that fails leaves the link as it was, and open to
    another try.  On the uninitialised link, when [lora_rak4630_init]
    returns non-zero, [init_lora] returns -1 having made that one call
    only: no global is written, no call reaches the radio, the indicator
    is not driven.  A later call whose bring-up succeeds runs the bring-up
    again, registers the handlers (for the first time) and ends in
    continuous receive. *)
Theorem init_lora_failure_then_retry (st : State) (hw : Z) :
  g_lorawan_initialized st = false ->
  hw <> 0 ->
  exists st1 st2,
    init_lora hw st = Some (-1, st1) /\
    st1 = set_calls (calls st ++ [lora_rak4630_init hw]) st /\
    count is_radio_call (calls st1) = count is_radio_call (calls st) /\
    LinkState_of st1 = LinkState_of st /\
    indicator st1 = indicator st /\
    init_lora 0 st1 = Some (0, st2) /\
    g_lorawan_initialized st2 = true /\
    RadioEvents st2 = registered_handlers /\
    count is_bring_up (calls st2) = (2 + count is_bring_up (calls st))%nat /\
    count is_registration (calls st2) =
      (1 + count is_registration (calls st))%nat /\
    LinkState_of st2 = Listening.
Proof.
  intros Hinit Hhw.
  pose proof (configuration_no_bring_up (g_lorawan_settings st)) as [Hb Hr].
  eexists. eexists.
  split; [apply init_lora_bring_up_fails; assumption|].
  split; [reflexivity|].
  split; [rewrite calls_set_calls, count_app; cbn; lia|].
  split; [unfold LinkState_of; rewrite calls_set_calls, link_after_app;
          reflexivity|].
  split; [unfold indicator; rewrite calls_set_calls, indicator_after_app;
          reflexivity|].
  split; [apply init_lora_first; exact Hinit|].
  unfold LinkState_of.
  cbn [calls g_lorawan_initialized RadioEvents g_lorawan_settings set_calls
       set_g_lorawan_initialized set_RadioEvents].
  conjuncts.
  - reflexivity.
  - reflexivity.
  - rewrite !count_app, Hb. cbn. lia.
  - rewrite !count_app, Hr. cbn. lia.
  - rewrite !app_assoc. apply link_after_configuration.
Qed.

Lemma init_lora_failure_then_retry_witness :
  g_lorawan_initialized (boot scenario_settings) = false /\
  exists st1 st2,
    init_lora 5 (boot scenario_settings) = Some (-1, st1) /\
    init_lora 0 st1 = Some (0, st2) /\
    count is_bring_up (calls st2) = 2%nat /\
    count is_registration (calls st2) = 1%nat.
Proof.
  split; [reflexivity|].
  destruct (init_lora_failure_then_retry (boot scenario_settings) 5)
    as [st1 [st2 [H1 [_ [_ [_ [_ [H2 [_ [_ [Hb [Hr _]]]]]]]]]]]].
  - reflexivity.
  - discriminate.
  - exists st1, st2. conjuncts; assumption.
Defined.

(** X4: what [init_lora] returns.  From any globals and for any result of
    the bring-up the call returns 0 or -1; it returns -1 exactly when the
    link was not initialised and the bring-up returned non-zero; and
    [g_lorawan_initialized] is set afterwards exactly when it returned 0,
    in which case the link is in continuous receive with the indicator
    low. *)
Theorem init_lora_result (hw : Z) (st : State) :
  exists r st',
    init_lora hw st = Some (r, st') /\
    (r = 0 \/ r = -1) /\
    (r = -1 <-> g_lorawan_initialized st = false /\ hw <> 0) /\
    (g_lorawan_initialized st' = true <-> r = 0) /\
    (r = 0 -> LinkState_of st' = Listening /\ indicator st' = Some LOW).
Proof.
  destruct (g_lorawan_initialized st) eqn:Hinit;
    [|destruct (Z.eq_dec hw 0) as [->|Hhw]].
  - eexists. eexists.
    split; [apply init_lora_initialized; exact Hinit|].
    unfold LinkState_of, indicator.
    cbn [calls g_lorawan_initialized set_calls set_g_lorawan_initialized
         set_RadioEvents].
    conjuncts.
    + left. reflexivity.
    + split; [discriminate | intros [E _]; discriminate E].
    + split; reflexivity.
    + intros _. split.
      * apply link_after_configuration.
      * apply indicator_after_configuration.
  - eexists. eexists.
    split; [apply init_lora_first; exact Hinit|].
    unfold LinkState_of, indicator.
    cbn [calls g_lorawan_initialized set_calls set_g_lorawan_initialized
         set_RadioEvents].
    conjuncts.
    + left. reflexivity.
    + split; [discriminate | intros [_ E]; contradiction E; reflexivity].
    + split; reflexivity.
    + intros _. rewrite !app_assoc. split.
      * apply link_after_configuration.
      * apply indicator_after_configuration.
  - eexists. eexists.
    split; [apply init_lora_bring_up_fails; assumption|].
    cbn [g_lorawan_initialized set_calls]. rewrite Hinit.
    conjuncts.
    + right. reflexivity.
    + split; auto.
    + split; discriminate.
    + discriminate.
Qed.

Lemma init_lora_result_witness :
  exists st',
    init_lora 0 (boot scenario_settings) = Some (0, st') /\
    g_lorawan_initialized st' = true /\
    LinkState_of st' = Listening.
Proof.
  destruct (init_lora_result 0 (boot scenario_settings))
    as [r [st' [Hrun [_ [_ [Hflag Hlink]]]]]].
  assert (Hr : r = 0).
  { assert (E : init_lora 0 (boot scenario_settings) =
                Some (0, listening_state)) by (vm_compute; reflexivity).
    rewrite E in Hrun. injection Hrun as <- _. reflexivity. }
  subst r. exists st'.
  split; [exact Hrun|].
  split; [apply Hflag; reflexivity|].
  apply Hlink. reflexivity.
Defined.

(** X5: a successful [init_lora] configures the radio from the settings
    as they are now, whatever the radio was told before: the last channel,
    transmit configuration and receive configuration the radio has been
    given are those of [g_lorawan_settings], and the radio is in
    continuous receive.  The settings themselves are not written. *)
Theorem init_lora_applies_current_settings
    (hw : Z) (st st' : State) :
  init_lora hw st = Some (0, st') ->
  g_lorawan_settings st' = g_lorawan_settings st /\
  radio_setup st' =
    mkRadioSetup
      (Some (Radio_SetChannel (p2p_frequency (g_lorawan_settings st))))
      (Some (Radio_SetTxConfig MODEM_LORA
               (p2p_tx_power (g_lorawan_settings st)) 0
               (p2p_bandwidth (g_lorawan_settings st))
               (p2p_sf (g_lorawan_settings st))
               (p2p_cr (g_lorawan_settings st))
               (p2p_preamble_len (g_lorawan_settings st))
               false true 0 0 false 5000))
      (Some (Radio_SetRxConfig MODEM_LORA
               (p2p_bandwidth (g_lorawan_settings st))
               (p2p_sf (g_lorawan_settings st))
               (p2p_cr (g_lorawan_settings st)) 0
               (p2p_preamble_len (g_lorawan_settings st))
               (p2p_symbol_timeout (g_lorawan_settings st))
               false 0 true 0 0 false true))
      Listening.
Proof.
  intros H.
  destruct (init_lora_cases _ _ _ _ H)
    as [[_ [_ ->]] | [[_ [_ [_ ->]]] | [_ [_ [E _]]]]];
    [ | | discriminate E ];
    (split; [reflexivity|]);
    unfold radio_setup;
    cbn [calls set_calls set_g_lorawan_initialized set_RadioEvents];
    rewrite ?app_assoc, fold_left_app;
    apply setup_after_configuration.
Qed.

Lemma init_lora_applies_current_settings_witness :
  setup_channel
    (radio_setup
       (exec (init_lora 0)
          (set_g_lorawan_settings (mkSettings 868000000 14 125 9 1 8 0 0)
             listening_state))) =
  Some (Radio_SetChannel 868000000).
Proof.
  assert (H : init_lora 0
                (set_g_lorawan_settings (mkSettings 868000000 14 125 9 1 8 0 0)
                   listening_state) =
              Some (0,
                exec (init_lora 0)
                  (set_g_lorawan_settings
                     (mkSettings 868000000 14 125 9 1 8 0 0)
                     listening_state)))
    by (vm_compute; reflexivity).
  destruct (init_lora_applies_current_settings _ _ _ H) as [_ E].
  rewrite E. reflexivity.
Defined.

(** ** How the handlers and the send request compose *)

Lemma lor_twice (flags mask : Z) :
  Z.lor (Z.lor flags mask) mask = Z.lor flags mask.
Proof. rewrite <- Z.lor_assoc, Z.lor_diag. reflexivity. Qed.

Section Composition.

Variables (LORA_DATA LORA_TX_FIN : Z).
Variable RX_DATA_LEN_BITS : Z.

(** X6: no function of the file clears an event bit.  [init_lora],
    [send_lora_packet], [on_rx_timeout], [on_rx_crc_error] and
    [on_cad_done] leave [g_task_event_type] and [g_rx_fin_result] as they
    found them; [on_tx_done], [on_tx_timeout] and [on_rx_done] only add
    bits to [g_task_event_type], and [on_rx_done] leaves
    [g_rx_fin_result] alone. *)
Theorem event_bits_never_cleared (st : State) :
  (forall hw r st',
     init_lora hw st = Some (r, st') ->
     g_task_event_type st' = g_task_event_type st /\
     g_rx_fin_result st' = g_rx_fin_result st) /\
  (forall data size r st',
     send_lora_packet data size st = Some (r, st') ->
     g_task_event_type st' = g_task_event_type st /\
     g_rx_fin_result st' = g_rx_fin_result st) /\
  (forall st',
     on_rx_timeout st = Some (tt, st') ->
     g_task_event_type st' = g_task_event_type st /\
     g_rx_fin_result st' = g_rx_fin_result st) /\
  (forall st',
     on_rx_crc_error st = Some (tt, st') ->
     g_task_event_type st' = g_task_event_type st /\
     g_rx_fin_result st' = g_rx_fin_result st) /\
  (forall cadResult st',
     on_cad_done cadResult st = Some (tt, st') ->
     g_task_event_type st' = g_task_event_type st /\
     g_rx_fin_result st' = g_rx_fin_result st) /\
  (forall st',
     on_tx_done LORA_TX_FIN st = Some (tt, st') ->
     Z.land (g_task_event_type st') (g_task_event_type st) =
       g_task_event_type st) /\
  (forall st',
     on_tx_timeout LORA_TX_FIN st = Some (tt, st') ->
     Z.land (g_task_event_type st') (g_task_event_type st) =
       g_task_event_type st) /\
  (forall payload size rssi snr st',
     on_rx_done LORA_DATA RX_DATA_LEN_BITS payload size rssi snr st =
       Some (tt, st') ->
     Z.land (g_task_event_type st') (g_task_event_type st) =
       g_task_event_type st /\
     g_rx_fin_result st' = g_rx_fin_result st).
Proof.
  conjuncts.
  - intros hw r st' H.
    destruct (init_lora_cases _ _ _ _ H)
      as [[_ [_ ->]] | [[_ [_ [_ ->]]] | [_ [_ [_ ->]]]]];
      split; reflexivity.
  - intros data size r st' H.
    destruct (send_lora_packet_inv _ _ _ _ _ H) as [_ [buf [_ ->]]].
    split; reflexivity.
  - intros st' H. injection H as <-. split; reflexivity.
  - intros st' H. injection H as <-. split; reflexivity.
  - intros cadResult st' H. rewrite on_cad_done_run in H.
    injection H as <-. split; reflexivity.
  - intros st' H. rewrite on_tx_done_run in H. injection H as <-.
    apply lor_keeps_bits.
  - intros st' H. rewrite on_tx_timeout_run in H. injection H as <-.
    apply lor_keeps_bits.
  - intros payload size rssi snr st' H.
    destruct (on_rx_done_inv _ _ _ _ _ _ _ _ H) as [buf [_ ->]].
    split; [apply lor_keeps_bits | reflexivity].
Qed.

(** X7: a second frame that arrives before the first was read replaces
    it.  After two receptions in a row (each within the payload and the
    buffer, the second size also within the cell that stores the length),
    the stored length, signal strength and signal-to-noise ratio are those
    of the second frame, the buffer starts with the second frame's bytes
    and is otherwise as the first reception left it, and the event flags
    are what they were after the first reception: the two arrivals show
    as one [LORA_DATA] bit.  The semaphore, when it exists, was given
    twice. *)
Theorem on_rx_done_second_arrival_overwrites
    (st : State) (p1 : list byte) (n1 rssi1 snr1 : Z)
    (p2 : list byte) (n2 rssi2 snr2 : Z) :
  length (g_rx_lora_data st) = BUFFER_CAPACITY ->
  0 <= n1 <= 256 -> n1 <= Z.of_nat (length p1) ->
  0 <= n2 <= 256 -> n2 <= Z.of_nat (length p2) ->
  n2 < 2 ^ RX_DATA_LEN_BITS ->
  -32768 <= rssi2 < 32768 ->
  -128 <= snr2 < 128 ->
  exists st1 st2,
    on_rx_done LORA_DATA RX_DATA_LEN_BITS p1 n1 rssi1 snr1 st =
      Some (tt, st1) /\
    on_rx_done LORA_DATA RX_DATA_LEN_BITS p2 n2 rssi2 snr2 st1 =
      Some (tt, st2) /\
    g_rx_data_len st2 = n2 /\
    g_last_rssi st2 = rssi2 /\
    g_last_snr st2 = snr2 /\
    firstn (Z.to_nat n2) (g_rx_lora_data st2) = firstn (Z.to_nat n2) p2 /\
    skipn (Z.to_nat n2) (g_rx_lora_data st2) =
      skipn (Z.to_nat n2) (g_rx_lora_data st1) /\
    g_task_event_type st2 = g_task_event_type st1 /\
    count is_wake (calls st2) =
      (count is_wake (calls st) +
         (if (g_task_sem st =? NULL)%Z then 0 else 2))%nat.
Proof.
  intros Hcap Hn1 Hp1 Hn2 Hp2 Hcell Hrssi Hsnr.
  assert (Hb : Z.of_nat (length (g_rx_lora_data st)) = 256)
    by (rewrite Hcap; reflexivity).
  eexists. eexists.
  split; [apply on_rx_done_run; lia|].
  split.
  - apply on_rx_done_run; [lia | lia |].
    cbn [g_rx_lora_data set_calls set_g_task_event_type set_g_rx_data_len
         set_g_rx_lora_data].
    rewrite memcpy_length by lia. lia.
  - cbn [calls g_rx_data_len g_last_rssi g_last_snr g_rx_lora_data
         g_task_event_type g_task_sem set_calls set_g_task_event_type
         set_g_rx_data_len set_g_rx_lora_data set_g_last_snr
         set_g_last_rssi].
    conjuncts.
    + apply to_unsigned_small. lia.
    + apply to_int16_small. exact Hrssi.
    + apply to_int8_small. exact Hsnr.
    + apply memcpy_prefix. lia.
    + apply memcpy_suffix. lia.
    + apply lor_twice.
    + rewrite !count_app. destruct (g_task_sem st =? NULL); cbn; lia.
Qed.

(** X8: a frame received while a request waits for the channel does not
    touch what will be sent.  After a request accepted for a payload of at
    most 255 bytes, then a reception, then CAD-done with the channel
    clear, [Radio.Send] is called with the payload's length and a buffer
    that starts with the payload. *)
Theorem reception_keeps_pending_tx_frame
    (st : State) (payload received : list byte) (size rssi snr : Z) :
  (length payload <= 255)%nat ->
  length (g_tx_lora_data st) = BUFFER_CAPACITY ->
  length (g_rx_lora_data st) = BUFFER_CAPACITY ->
  0 <= size <= 256 -> size <= Z.of_nat (length received) ->
  exists st1 st2 st3 buffer,
    send_lora_packet payload (Z.of_nat (length payload)) st = Some (true, st1) /\
    on_rx_done LORA_DATA RX_DATA_LEN_BITS received size rssi snr st1 =
      Some (tt, st2) /\
    on_cad_done false st2 = Some (tt, st3) /\
    calls st3 = calls st2 ++ [Radio_Send buffer (Z.of_nat (length payload))] /\
    firstn (length payload) buffer = payload /\
    LinkState_of st3 = Transmitting.
Proof.
  intros Hlen Htx Hrx Hsz Hrec.
  assert (Hu : to_uint8 (Z.of_nat (length payload)) =
               Z.of_nat (length payload))
    by (apply to_uint8_small; lia).
  assert (Hb : Z.of_nat (length (g_rx_lora_data st)) = 256)
    by (rewrite Hrx; reflexivity).
  eexists. eexists. eexists. eexists.
  split.
  { apply send_lora_packet_run; rewrite Hu; [lia|].
    rewrite Htx. unfold BUFFER_CAPACITY. lia. }
  split.
  { apply on_rx_done_run; [lia | lia |].
    cbn [g_rx_lora_data set_calls set_g_tx_lora_data set_g_tx_data_len].
    lia. }
  split; [apply on_cad_done_run|].
  unfold LinkState_of. rewrite Hu, Nat2Z.id.
  cbn [calls g_tx_lora_data g_tx_data_len set_calls set_g_task_event_type
       set_g_rx_data_len set_g_rx_lora_data set_g_last_snr set_g_last_rssi
       set_g_tx_lora_data set_g_tx_data_len].
  conjuncts.
  - reflexivity.
  - rewrite memcpy_prefix by lia. apply firstn_all.
  - rewrite link_after_app. reflexivity.
Qed.

(** X9: one send cycle from the uninitialised link.  A successful
    [init_lora], a request for a payload of at most 255 bytes, CAD-done
    with the channel clear, and then either the transmit-complete or the
    transmit-timeout handler: the radio was handed the payload with its
    length, the link is [Listening] again, [LORA_TX_FIN] is set, and the
    result of the send is [true] after completion and [false] after the
    timeout.  The hardware was brought up once and the handlers were
    registered once on the way. *)
Theorem send_cycle_from_boot (st : State) (payload : list byte) :
  g_lorawan_initialized st = false ->
  (length payload <= 255)%nat ->
  length (g_tx_lora_data st) = BUFFER_CAPACITY ->
  exists st1 st2 st3 st_done st_timeout buffer,
    init_lora 0 st = Some (0, st1) /\
    send_lora_packet payload (Z.of_nat (length payload)) st1 = Some (true, st2) /\
    on_cad_done false st2 = Some (tt, st3) /\
    on_tx_done LORA_TX_FIN st3 = Some (tt, st_done) /\
    on_tx_timeout LORA_TX_FIN st3 = Some (tt, st_timeout) /\
    calls st3 = calls st2 ++ [Radio_Send buffer (Z.of_nat (length payload))] /\
    firstn (length payload) buffer = payload /\
    LinkState_of st_done = Listening /\
    LinkState_of st_timeout = Listening /\
    Z.land (g_task_event_type st_done) LORA_TX_FIN = LORA_TX_FIN /\
    Z.land (g_task_event_type st_timeout) LORA_TX_FIN = LORA_TX_FIN /\
    g_rx_fin_result st_done = true /\
    g_rx_fin_result st_timeout = false /\
    count is_bring_up (calls st_done) = S (count is_bring_up (calls st)) /\
    count is_registration (calls st_done) =
      S (count is_registration (calls st)).
Proof.
  intros Hinit Hlen Htx.
  assert (Hu : to_uint8 (Z.of_nat (length payload)) =
               Z.of_nat (length payload))
    by (apply to_uint8_small; lia).
  pose proof (configuration_no_bring_up (g_lorawan_settings st)) as [Hb Hr].
  eexists. eexists. eexists. eexists. eexists. eexists.
  split; [apply init_lora_first; exact Hinit|].
  split.
  { apply send_lora_packet_run; rewrite Hu; [lia|].
    cbn [g_tx_lora_data set_g_lorawan_initialized set_calls set_RadioEvents].
    rewrite Htx. unfold BUFFER_CAPACITY. lia. }
  split; [apply on_cad_done_run|].
  split; [apply on_tx_done_run|].
  split; [apply on_tx_timeout_run|].
  unfold LinkState_of. rewrite Hu, Nat2Z.id.
  cbn [calls g_tx_lora_data g_tx_data_len g_task_event_type g_rx_fin_result
       g_task_sem g_lorawan_settings
       set_calls set_g_task_event_type set_g_rx_fin_result
       set_g_tx_lora_data set_g_tx_data_len set_g_lorawan_initialized
       set_RadioEvents].
  conjuncts.
  - reflexivity.
  - rewrite memcpy_prefix by lia. apply firstn_all.
  - apply link_after_rx.
  - apply link_after_rx.
  - apply lor_sets_mask.
  - apply lor_sets_mask.
  - reflexivity.
  - reflexivity.
  - rewrite !count_app, Hb. destruct (g_task_sem st =? NULL); cbn; lia.
  - rewrite !count_app, Hr. destruct (g_task_sem st =? NULL); cbn; lia.
Qed.

(** X10: of two requests made back to back, only the second is sent.
    Both are accepted (payloads of at most 255 bytes); when the channel is
    then found clear, the one [Radio.Send] call carries the length of the
    second payload and a buffer that starts with its bytes.  Over the
    three steps the radio was put to sleep and into detection twice and
    asked to transmit once. *)
Theorem last_request_wins (st : State) (p1 p2 : list byte) :
  (length p1 <= 255)%nat ->
  (length p2 <= 255)%nat ->
  length (g_tx_lora_data st) = BUFFER_CAPACITY ->
  exists st1 st2 st3 buffer,
    send_lora_packet p1 (Z.of_nat (length p1)) st = Some (true, st1) /\
    send_lora_packet p2 (Z.of_nat (length p2)) st1 = Some (true, st2) /\
    on_cad_done false st2 = Some (tt, st3) /\
    firstn (length p2) buffer = p2 /\
    calls st3 =
      calls st ++
        [ Radio_Sleep;
          Radio_SetCadParams LORA_CAD_08_SYMBOL
            (p2p_sf (g_lorawan_settings st) + 13) 10 LORA_CAD_ONLY 0;
          digitalWrite LED_BUILTIN HIGH;
          Radio_StartCad;
          Radio_Sleep;
          Radio_SetCadParams LORA_CAD_08_SYMBOL
            (p2p_sf (g_lorawan_settings st) + 13) 10 LORA_CAD_ONLY 0;
          digitalWrite LED_BUILTIN HIGH;
          Radio_StartCad;
          Radio_Send buffer (Z.of_nat (length p2)) ].
Proof.
  intros H1 H2 Htx.
  assert (Hu1 : to_uint8 (Z.of_nat (length p1)) = Z.of_nat (length p1))
    by (apply to_uint8_small; lia).
  assert (Hu2 : to_uint8 (Z.of_nat (length p2)) = Z.of_nat (length p2))
    by (apply to_uint8_small; lia).
  assert (Hb : Z.of_nat (length (g_tx_lora_data st)) = 256)
    by (rewrite Htx; reflexivity).
  eexists. eexists. eexists. eexists.
  split; [apply send_lora_packet_run; rewrite Hu1; lia|].
  split.
  { apply send_lora_packet_run; rewrite Hu2; [lia|].
    cbn [g_tx_lora_data set_calls set_g_tx_lora_data set_g_tx_data_len].
    rewrite Hu1, Nat2Z.id, memcpy_length by lia. lia. }
  split; [apply on_cad_done_run|].
  rewrite Hu2, Nat2Z.id.
  cbn [calls g_tx_lora_data g_tx_data_len g_lorawan_settings
       set_calls set_g_tx_lora_data set_g_tx_data_len].
  split; revgoals.
  - rewrite <- !app_assoc. reflexivity.
  - rewrite memcpy_prefix by lia. apply firstn_all.
Qed.

End Composition.

Lemma event_bits_never_cleared_witness :
  g_task_event_type (set_g_task_event_type 8 transmitting_state) = 8 /\
  g_task_event_type
    (exec (on_tx_done 16) (set_g_task_event_type 8 transmitting_state)) =
    24 /\
  Z.land
    (g_task_event_type
       (exec (on_tx_done 16) (set_g_task_event_type 8 transmitting_state)))
    (g_task_event_type (set_g_task_event_type 8 transmitting_state)) = 8 /\
  g_task_event_type
    (exec (send_lora_packet [x01] 1)
       (set_g_task_event_type 24 listening_state)) = 24 /\
  g_task_event_type
    (exec (on_cad_done true) (set_g_task_event_type 24 sensing_state)) = 24.
Proof.
  split; [reflexivity|]. split; [vm_compute; reflexivity|].
  split; [|split].
  - destruct (event_bits_never_cleared 8 16 8
                (set_g_task_event_type 8 transmitting_state))
      as [_ [_ [_ [_ [_ [Hdone _]]]]]].
    apply Hdone. vm_compute. reflexivity.
  - destruct (event_bits_never_cleared 8 16 8
                (set_g_task_event_type 24 listening_state))
      as [_ [Hsend _]].
    apply (Hsend [x01] 1 true). vm_compute. reflexivity.
  - destruct (event_bits_never_cleared 8 16 8
                (set_g_task_event_type 24 sensing_state))
      as [_ [_ [_ [_ [Hcad _]]]]].
    apply (Hcad true). vm_compute. reflexivity.
Defined.

Lemma on_rx_done_second_arrival_overwrites_witness :
  exists st1 st2,
    on_rx_done 8 8 [x48; x65; x79] 3 (-70) 9 listening_state_with_semaphore =
      Some (tt, st1) /\
    on_rx_done 8 8 [x4f; x6b] 2 (-81) 4 st1 = Some (tt, st2) /\
    g_rx_data_len st2 = 2 /\
    g_last_rssi st2 = -81 /\
    g_task_event_type st2 = g_task_event_type st1.
Proof.
  destruct (on_rx_done_second_arrival_overwrites 8 8
              listening_state_with_semaphore
              [x48; x65; x79] 3 (-70) 9 [x4f; x6b] 2 (-81) 4)
    as [st1 [st2 [H1 [H2 [Hlen [Hrssi [_ [_ [_ [Hflags _]]]]]]]]]].
  - reflexivity.
  - lia.
  - cbn. lia.
  - lia.
  - cbn. lia.
  - reflexivity.
  - lia.
  - lia.
  - exists st1, st2. conjuncts; assumption.
Defined.

Lemma reception_keeps_pending_tx_frame_witness :
  exists st1 st2 st3 buffer,
    send_lora_packet [x01; x02; x03] 3 listening_state = Some (true, st1) /\
    on_rx_done 8 8 [x4f; x6b] 2 (-81) 4 st1 = Some (tt, st2) /\
    on_cad_done false st2 = Some (tt, st3) /\
    calls st3 = calls st2 ++ [Radio_Send buffer 3] /\
    firstn 3 buffer = [x01; x02; x03].
Proof.
  destruct (reception_keeps_pending_tx_frame 8 8 listening_state
              [x01; x02; x03] [x4f; x6b] 2 (-81) 4)
    as [st1 [st2 [st3 [buffer [H1 [H2 [H3 [Hcalls [Hbuf _]]]]]]]]].
  - cbn. lia.
  - reflexivity.
  - reflexivity.
  - lia.
  - cbn. lia.
  - exists st1, st2, st3, buffer. conjuncts; assumption.
Defined.

Lemma send_cycle_from_boot_witness :
  exists st1 st2 st3 st_done,
    init_lora 0 (boot scenario_settings) = Some (0, st1) /\
    send_lora_packet [x01; x02; x03] 3 st1 = Some (true, st2) /\
    on_cad_done false st2 = Some (tt, st3) /\
    on_tx_done 16 st3 = Some (tt, st_done) /\
    LinkState_of st_done = Listening /\
    Z.land (g_task_event_type st_done) 16 = 16 /\
    g_rx_fin_result st_done = true.
Proof.
  destruct (send_cycle_from_boot 16 (boot scenario_settings) [x01; x02; x03])
    as [st1 [st2 [st3 [st_done [st_timeout [buffer
         [H1 [H2 [H3 [H4 [_ [_ [_ [Hlink [_ [Hbit [_ [Hres _]]]]]]]]]]]]]]]]]].
  - reflexivity.
  - cbn. lia.
  - reflexivity.
  - exists st1, st2, st3, st_done. conjuncts; assumption.
Defined.

Lemma last_request_wins_witness :
  exists st1 st2 st3 buffer,
    send_lora_packet [x01; x02; x03] 3 listening_state = Some (true, st1) /\
    send_lora_packet [x0a; x0b] 2 st1 = Some (true, st2) /\
    on_cad_done false st2 = Some (tt, st3) /\
    firstn 2 buffer = [x0a; x0b] /\
    LinkState_of st3 = Transmitting.
Proof.
  destruct (last_request_wins listening_state [x01; x02; x03] [x0a; x0b])
    as [st1 [st2 [st3 [buffer [H1 [H2 [H3 [Hbuf Hcalls]]]]]]]].
  - cbn. lia.
  - cbn. lia.
  - reflexivity.
  - exists st1, st2, st3, buffer. conjuncts; try assumption.
    unfold LinkState_of. rewrite Hcalls, link_after_app. reflexivity.
Defined.

(** ** What holds in every reachable state *)

(** Projections through the setters. *)
Ltac project :=
  cbn [ g_lorawan_initialized g_lorawan_settings RadioEvents g_rx_fin_result
        g_task_event_type g_task_sem g_last_rssi g_last_snr g_rx_lora_data
        g_rx_data_len g_tx_lora_data g_tx_data_len calls
        set_g_lorawan_initialized set_g_lorawan_settings set_RadioEvents
        set_g_rx_fin_result set_g_task_event_type set_g_task_sem
        set_g_last_rssi set_g_last_snr set_g_rx_lora_data set_g_rx_data_len
        set_g_tx_lora_data set_g_tx_data_len set_calls ] in *.

Section Invariants.

Variables (LORA_DATA LORA_TX_FIN : Z).
Variable RX_DATA_LEN_BITS : Z.

(** X11: the handlers are registered once and for all.  In every
    reachable state [Radio.Init] has been called exactly once if
    [g_lorawan_initialized] is set and never if it is not, and the
    [RadioEvents] table holds the six handlers in the first case and is
    still empty in the second. *)
Theorem handlers_registered_once (st : State) :
  reachable LORA_DATA LORA_TX_FIN RX_DATA_LEN_BITS st ->
  count is_registration (calls st) =
    (if g_lorawan_initialized st then 1 else 0)%nat /\
  RadioEvents st =
    (if g_lorawan_initialized st then registered_handlers else no_handlers).
Proof.
  intros Hreach. induction Hreach as [s | st st' _ [IHn IHe] Hstep].
  - split; reflexivity.
  - destruct Hstep as
      [ hw st r st' H | data size st r st' H | st st' H
      | payload size rssi snr st st' H | st st' H | st st' H | st st' H
      | cadResult st st' H | s sem flags st ].
    + pose proof (configuration_no_bring_up (g_lorawan_settings st))
        as [_ Hr].
      destruct (init_lora_cases _ _ _ _ H)
        as [[Hi [_ ->]] | [[Hi [_ [_ ->]]] | [Hi [_ [_ ->]]]]];
        rewrite Hi in IHn, IHe; project.
      * rewrite count_app, Hr, IHn. auto.
      * rewrite !count_app, Hr, IHn. auto.
      * rewrite Hi, count_app, IHn. auto.
    + destruct (send_lora_packet_inv _ _ _ _ _ H) as [_ [buf [_ ->]]].
      project. rewrite count_app, IHn. cbn. rewrite Nat.add_0_r. auto.
    + rewrite on_tx_done_run in H. injection H as <-. project.
      rewrite !count_app, IHn.
      destruct (g_task_sem st =? NULL); cbn; rewrite Nat.add_0_r; auto.
    + destruct (on_rx_done_inv _ _ _ _ _ _ _ _ H) as [buf [_ ->]]. project.
      rewrite !count_app, IHn.
      destruct (g_task_sem st =? NULL); cbn; rewrite Nat.add_0_r; auto.
    + rewrite on_tx_timeout_run in H. injection H as <-. project.
      rewrite !count_app, IHn.
      destruct (g_task_sem st =? NULL); cbn; rewrite Nat.add_0_r; auto.
    + injection H as <-. project.
      rewrite count_app, IHn. cbn. rewrite Nat.add_0_r. auto.
    + injection H as <-. project.
      rewrite count_app, IHn. cbn. rewrite Nat.add_0_r. auto.
    + rewrite on_cad_done_run in H. injection H as <-. project.
      rewrite count_app, IHn.
      destruct cadResult; cbn; rewrite Nat.add_0_r; auto.
    + project. auto.
Qed.

(** X12: the frames always fit.  In every reachable state both frame
    buffers hold 256 bytes, the pending transmit length is between 0 and
    255, the stored receive length is between 0 and 256, and every
    [Radio.Send] made so far was given a 256-byte buffer and a length of
    at most 255: the radio is never told to send more bytes than the
    buffer holds. *)
Theorem reachable_frames_fit (st : State) :
  reachable LORA_DATA LORA_TX_FIN RX_DATA_LEN_BITS st ->
  length (g_tx_lora_data st) = BUFFER_CAPACITY /\
  length (g_rx_lora_data st) = BUFFER_CAPACITY /\
  0 <= g_tx_data_len st <= 255 /\
  0 <= g_rx_data_len st <= 256 /\
  Forall send_fits (calls st).
Proof.
  intros Hreach.
  induction Hreach as [s | st st' _ [IHtx [IHrx [IHtl [IHrl IHs]]]] Hstep].
  - conjuncts; try apply repeat_length; try (cbn; lia). constructor.
  - destruct Hstep as
      [ hw st r st' H | data size st r st' H | st st' H
      | payload size rssi snr st st' H | st st' H | st st' H | st st' H
      | cadResult st st' H | s sem flags st ].
    + destruct (init_lora_cases _ _ _ _ H)
        as [[_ [_ ->]] | [[_ [_ [_ ->]]] | [_ [_ [_ ->]]]]];
        project; conjuncts; try assumption; try lia;
        unfold configuration_calls;
        destruct (send_repeat_time (g_lorawan_settings st) =? 0);
        rewrite ?Forall_app; conjuncts; try assumption;
        repeat (constructor; try exact I).
    + destruct (send_lora_packet_inv _ _ _ _ _ H) as [_ [buf [Hcopy ->]]].
      pose proof (to_uint8_range size) as Hr.
      apply memcpy_keeps_length in Hcopy. rewrite IHtx in Hcopy.
      project. conjuncts; try assumption; try lia.
      rewrite Forall_app. split; [assumption|].
      repeat (constructor; try exact I).
    + rewrite on_tx_done_run in H. injection H as <-. project.
      conjuncts; try assumption; try lia.
      rewrite !Forall_app. conjuncts; [assumption | |].
      * destruct (g_task_sem st =? NULL); repeat (constructor; try exact I).
      * repeat (constructor; try exact I).
    + destruct (on_rx_done_inv _ _ _ _ _ _ _ _ H) as [buf [Hcopy ->]].
      destruct (memcpy_inv _ _ _ _ Hcopy) as [_ [Hfit _]].
      apply memcpy_keeps_length in Hcopy. rewrite IHrx in Hcopy, Hfit.
      unfold BUFFER_CAPACITY in Hfit.
      assert (Hr : 0 <= to_uint16 size < 65536)
        by (unfold to_uint16; apply Z.mod_pos_bound; lia).
      pose proof (to_unsigned_le RX_DATA_LEN_BITS (to_uint16 size) (proj1 Hr))
        as Hstored.
      project. conjuncts; try assumption; try lia.
      rewrite !Forall_app. conjuncts; [assumption | |].
      * destruct (g_task_sem st =? NULL); repeat (constructor; try exact I).
      * repeat (constructor; try exact I).
    + rewrite on_tx_timeout_run in H. injection H as <-. project.
      conjuncts; try assumption; try lia.
      rewrite !Forall_app. conjuncts; [assumption | |].
      * destruct (g_task_sem st =? NULL); repeat (constructor; try exact I).
      * repeat (constructor; try exact I).
    + injection H as <-. project. conjuncts; try assumption; try lia.
      rewrite Forall_app. split; [assumption|].
      repeat (constructor; try exact I).
    + injection H as <-. project. conjuncts; try assumption; try lia.
      rewrite Forall_app. split; [assumption|].
      repeat (constructor; try exact I).
    + rewrite on_cad_done_run in H. injection H as <-. project.
      conjuncts; try assumption; try lia.
      rewrite Forall_app. split; [assumption|].
      destruct cadResult.
      * repeat (constructor; try exact I).
      * constructor; [|constructor]. split; [exact IHtx | exact IHtl].
    + project. conjuncts; try assumption; lia.
Qed.

(** X13: a null semaphore is never given.  In every reachable state,
    each [xSemaphoreGive] made so far was handed a handle that is not
    null. *)
Theorem semaphore_never_given_null (st : State) :
  reachable LORA_DATA LORA_TX_FIN RX_DATA_LEN_BITS st ->
  Forall give_is_valid (calls st).
Proof.
  intros Hreach. induction Hreach as [s | st st' _ IH Hstep].
  - constructor.
  - destruct Hstep as
      [ hw st r st' H | data size st r st' H | st st' H
      | payload size rssi snr st st' H | st st' H | st st' H | st st' H
      | cadResult st st' H | s sem flags st ].
    + destruct (init_lora_cases _ _ _ _ H)
        as [[_ [_ ->]] | [[_ [_ [_ ->]]] | [_ [_ [_ ->]]]]];
        project; unfold configuration_calls;
        destruct (send_repeat_time (g_lorawan_settings st) =? 0);
        rewrite ?Forall_app; conjuncts; try assumption;
        repeat (constructor; try exact I).
    + destruct (send_lora_packet_inv _ _ _ _ _ H) as [_ [buf [_ ->]]].
      project. rewrite Forall_app. split; [assumption|].
      repeat (constructor; try exact I).
    + rewrite on_tx_done_run in H. injection H as <-. project.
      rewrite !Forall_app. conjuncts; [assumption | |].
      * destruct (g_task_sem st =? NULL) eqn:E; constructor;
          [apply Z.eqb_neq; exact E | constructor].
      * repeat (constructor; try exact I).
    + destruct (on_rx_done_inv _ _ _ _ _ _ _ _ H) as [buf [_ ->]]. project.
      rewrite !Forall_app. conjuncts; [assumption | |].
      * destruct (g_task_sem st =? NULL) eqn:E; constructor;
          [apply Z.eqb_neq; exact E | constructor].
      * repeat (constructor; try exact I).
    + rewrite on_tx_timeout_run in H. injection H as <-. project.
      rewrite !Forall_app. conjuncts; [assumption | |].
      * destruct (g_task_sem st =? NULL) eqn:E; constructor;
          [apply Z.eqb_neq; exact E | constructor].
      * repeat (constructor; try exact I).
    + injection H as <-. project. rewrite Forall_app. split; [assumption|].
      repeat (constructor; try exact I).
    + injection H as <-. project. rewrite Forall_app. split; [assumption|].
      repeat (constructor; try exact I).
    + rewrite on_cad_done_run in H. injection H as <-. project.
      rewrite Forall_app. split; [assumption|].
      destruct cadResult; repeat (constructor; try exact I).
    + project. assumption.
Qed.

End Invariants.

Lemma handlers_registered_once_witness :
  reachable 8 16 8 transmitting_state /\
  count is_registration (calls transmitting_state) = 1%nat /\
  RadioEvents transmitting_state = registered_handlers.
Proof.
  split; [apply reachable_transmitting_state|].
  exact (handlers_registered_once 8 16 8 transmitting_state
           (reachable_transmitting_state 8 16 8)).
Defined.

Lemma reachable_frames_fit_witness :
  reachable 8 16 8 transmitting_state /\
  0 <= g_tx_data_len transmitting_state <= 255 /\
  Forall send_fits (calls transmitting_state).
Proof.
  split; [apply reachable_transmitting_state|].
  destruct (reachable_frames_fit 8 16 8 transmitting_state
              (reachable_transmitting_state 8 16 8))
    as [_ [_ [Hlen [_ Hsend]]]].
  split; assumption.
Defined.

Lemma semaphore_never_given_null_witness :
  In (xSemaphoreGive 536879104)
    (calls
       (exec (on_rx_done 8 8 [x48; x69] 2 (-70) 9)
          (set_g_lorawan_settings scenario_settings
             (set_g_task_sem 536879104
                (set_g_task_event_type 0 listening_state))))) /\
  Forall give_is_valid
    (calls
       (exec (on_rx_done 8 8 [x48; x69] 2 (-70) 9)
          (set_g_lorawan_settings scenario_settings
             (set_g_task_sem 536879104
                (set_g_task_event_type 0 listening_state))))).
Proof.
  split.
  - vm_compute. do 8 right. left. reflexivity.
  - apply (semaphore_never_given_null 8 16 8).
    eapply reachable_step.
    + eapply reachable_step.
      * apply reachable_listening_state.
      * apply (step_firmware 8 16 8 scenario_settings 536879104 0).
    + apply (step_on_rx_done 8 16 8 [x48; x69] 2 (-70) 9).
      vm_compute. reflexivity.
Defined.

(** ** The wake-up timer *)

(** X14: the wake-up timer follows [send_repeat_time].  A successful
    [init_lora] begins the timer with [send_repeat_time] as its period and
    [periodic_wakeup] as its callback and starts it, right before the
    radio goes to receive, when the repeat time is not zero; with a repeat
    time of zero it makes no call on the timer.  A failed [init_lora]
    makes none either. *)
Theorem init_lora_wakeup_timer (hw : Z) (st : State) (r : Z) (st' : State) :
  init_lora hw st = Some (r, st') ->
  (r = -1 -> count is_timer_call (calls st') = count is_timer_call (calls st)) /\
  (r = 0 ->
   send_repeat_time (g_lorawan_settings st) = 0 ->
   count is_timer_call (calls st') = count is_timer_call (calls st)) /\
  (r = 0 ->
   send_repeat_time (g_lorawan_settings st) <> 0 ->
   count is_timer_call (calls st') =
     (2 + count is_timer_call (calls st))%nat /\
   exists before,
     calls st' =
       before ++
         [ g_task_wakeup_timer_begin
             (send_repeat_time (g_lorawan_settings st)) fn_periodic_wakeup;
           g_task_wakeup_timer_start;
           Radio_Rx 0;
           digitalWrite LED_BUILTIN LOW ]).
Proof.
  intros H.
  destruct (init_lora_cases _ _ _ _ H)
    as [[_ [-> ->]] | [[_ [_ [-> ->]]] | [_ [_ [-> ->]]]]];
    project; unfold configuration_calls.
  - conjuncts.
    + discriminate.
    + intros _ E. apply Z.eqb_eq in E. rewrite E, !count_app. cbn. lia.
    + intros _ E. apply Z.eqb_neq in E. rewrite E, !count_app. split.
      * cbn. lia.
      * eexists. rewrite !app_assoc. rewrite <- app_assoc. reflexivity.
  - conjuncts.
    + discriminate.
    + intros _ E. apply Z.eqb_eq in E. rewrite E, !count_app. cbn. lia.
    + intros _ E. apply Z.eqb_neq in E. rewrite E, !count_app. split.
      * cbn. lia.
      * eexists. rewrite !app_assoc. rewrite <- app_assoc. reflexivity.
  - conjuncts.
    + intros _. rewrite count_app. cbn. lia.
    + discriminate.
    + discriminate.
Qed.

Lemma init_lora_wakeup_timer_witness :
  count is_timer_call
    (calls
       (exec (init_lora 0)
          (boot (mkSettings 915000000 0 125 7 1 8 0 10000)))) = 2%nat /\
  count is_timer_call (calls listening_state) = 0%nat.
Proof.
  split.
  - assert (H : init_lora 0 (boot (mkSettings 915000000 0 125 7 1 8 0 10000)) =
                Some (0,
                  exec (init_lora 0)
                    (boot (mkSettings 915000000 0 125 7 1 8 0 10000))))
      by (vm_compute; reflexivity).
    destruct (init_lora_wakeup_timer _ _ _ _ H) as [_ [_ Harmed]].
    destruct Harmed as [Hcount _]; [reflexivity | discriminate |].
    exact Hcount.
  - assert (H : init_lora 0 (boot scenario_settings) =
                Some (0, listening_state))
      by (vm_compute; reflexivity).
    destruct (init_lora_wakeup_timer _ _ _ _ H) as [_ [Hnone _]].
    apply Hnone; reflexivity.
Defined.
